(** * aws-moviesapi: the request router and the list paginator

    A shallow embedding of the Go sources of the movies API:
    - the router lambda ([handleRequest] and its five operations,
      [jsonErrorResponse], [jsonSuccessResponse], [paginateMovies]);
    - the four single-operation lambdas ([Update.update],
      [FindOne.findOne], [Delete.delete], [Insert.insert]).

    Go's [int] is the 64-bit two's-complement integer of the Lambda targets
    (amd64, arm64); it is modelled as [Z] with the wrap-around written out.
    [float64] is the IEEE-754 binary64 format, taken from the Standard
    Library's executable specification [SpecFloat]. Strings are byte strings.
    What lies outside the repository (the DynamoDB client, the process
    environment, the JSON codec of the Go library) is an interface the
    development is parametric in. *)

From Stdlib Require Import ZArith Lia Bool List String Ascii.
From Stdlib Require Import Sorting.Sorted Sorting.Permutation.
From Stdlib Require Import Floats.SpecFloat.
From Stdlib Require Import DecimalString.
From stdpp Require Import base gmap strings list.

Open Scope Z_scope.

(* ================================================================== *)
(** * Go runtime: results, panics, integers                            *)
(* ================================================================== *)

(** A Go call returning [(value, error)]: either the value with a nil
    error, or an error carrying its [Error()] text. *)
Inductive result (A : Type) : Type :=
| Ok (a : A)
| Err (msg : string).
Arguments Ok {A} a.
Arguments Err {A} msg.

(** The [error] interface value a handler returns next to its response. *)
Definition error : Type := option string.
Definition nil : error := None.

(** Run-time panics the sources can raise. *)
Inductive runtime_error : Type :=
| nil_pointer_dereference
| slice_bounds_out_of_range.

(** The outcome of running Go code that may panic. *)
Inductive Outcome (A : Type) : Type :=
| Ret (a : A)
| Panic (e : runtime_error).
Arguments Ret {A} a.
Arguments Panic {A} e.

Definition obind {A B : Type} (o : Outcome A) (k : A -> Outcome B) : Outcome B :=
  match o with
  | Ret a => k a
  | Panic e => Panic e
  end.

Declare Scope go_scope.
Delimit Scope go_scope with go.
Notation "x <- c1 ;; c2" := (obind c1 (fun x => c2))
  (at level 100, c1 at next level, right associativity) : go_scope.

Definition MinInt64 : Z := - 2 ^ 63.
Definition MaxInt64 : Z := 2 ^ 63 - 1.

(** Two's-complement wrap-around of 64-bit [int] arithmetic. *)
Definition wrap64 (z : Z) : Z := (z + 2 ^ 63) mod 2 ^ 64 - 2 ^ 63.

(** [len(s)] as a Go [int]. *)
Definition len {A : Type} (s : list A) : Z := Z.of_nat (length s).

(** The slice expression [s[lo:hi]]: it panics unless
    [0 <= lo <= hi <= cap(s)]. The slices here are sliced with [hi]
    already clamped to [len(s)], so the capacity is taken to be the
    length. *)
Definition go_slice {A : Type} (s : list A) (lo hi : Z) : Outcome (list A) :=
  if (0 <=? lo) && (lo <=? hi) && (hi <=? len s)
  then Ret (firstn (Z.to_nat (hi - lo)) (skipn (Z.to_nat lo) s))
  else Panic slice_bounds_out_of_range.

(** Indexing a [map[string]string]: the zero value when the key is absent
    (also on a nil map). *)
Definition go_index (m : gmap string string) (k : string) : string :=
  default "" (m !! k).

(* ================================================================== *)
(** * float64 and package math                                         *)
(* ================================================================== *)

Definition float64 : Type := spec_float.

(** The conversion [float64(n)] of an integer: round to nearest, ties to
    even. *)
Definition float64_of_int (n : Z) : float64 := binary_normalize 53 1024 n 0 false.

(** The quotient [x / y] of two float64 values. *)
Definition float64_div (x y : float64) : float64 := SFdiv 53 1024 x y.

(** The conversion [int(x)] of a float64: the fraction is discarded
    (truncation towards zero). For NaN, the infinities and values outside
    the int range Go leaves the result to the implementation; the amd64
    value is taken. *)
Definition int_of_float64 (x : float64) : Z :=
  match x with
  | S754_zero _ => 0
  | S754_finite s m e =>
      let a := match e with
               | Zneg k => Zpos m / 2 ^ Zpos k
               | _ => Zpos m * 2 ^ e
               end in
      let v := if s then - a else a in
      if (MinInt64 <=? v) && (v <=? MaxInt64) then v else MinInt64
  | _ => MinInt64
  end.

Module math.

(** [math.Ceil]: the least integer value greater than or equal to [x];
    zeros, infinities and NaN are returned unchanged. *)
Definition Ceil (x : float64) : float64 :=
  match x with
  | S754_finite s m e =>
      match e with
      | Zneg k =>
          let v := if s then Zneg m else Zpos m in
          let c := - ((- v) / 2 ^ Zpos k) in
          match c with
          | Z0 => S754_zero s
          | _ => binary_normalize 53 1024 c 0 false
          end
      | _ => x
      end
  | _ => x
  end.

End math.

(** [float64(3)], the divisor of the page count: [3 * 2^51 * 2^-51]. *)
Definition three64 : positive := 6755399441055744.

(** The rounding position after one more bit [q mod 2] is shifted out of a
    mantissa [q] that came with position [l]. *)
Definition sticky (q : Z) (l : location) : location :=
  match Z.odd q, l with
  | false, loc_Exact => loc_Exact
  | false, loc_Inexact _ => loc_Inexact Lt
  | true, loc_Exact => loc_Inexact Eq
  | true, loc_Inexact _ => loc_Inexact Gt
  end.

(* ================================================================== *)
(** * Package strconv                                                  *)
(* ================================================================== *)

Module strconv.

Definition is_digit (c : ascii) : bool :=
  (48 <=? Z.of_N (N_of_ascii c)) && (Z.of_N (N_of_ascii c) <=? 57).

Fixpoint digits (s : string) (acc : Z) : option Z :=
  match s with
  | EmptyString => Some acc
  | String c rest =>
      if is_digit c
      then digits rest (10 * acc + (Z.of_N (N_of_ascii c) - 48))
      else None
  end.

(** [strconv.Atoi]: an optional sign followed by one or more decimal
    digits, denoting a value of the int range; [None] stands for a non-nil
    error (syntax or range), whose text no caller here reads. *)
Definition Atoi (s : string) : option Z :=
  match s with
  | EmptyString => None
  | String c rest =>
      let neg := Ascii.eqb c "-" in
      let body := if neg || Ascii.eqb c "+" then rest else s in
      match body with
      | EmptyString => None
      | _ =>
          match digits body 0 with
          | None => None
          | Some un =>
              let n := if neg then - un else un in
              if (MinInt64 <=? n) && (n <=? MaxInt64) then Some n else None
          end
      end
  end.

(** Decimal rendering of an [int], as the JSON encoder prints it. *)
Definition Itoa (n : Z) : string := NilZero.string_of_int (Z.to_int n).

End strconv.

(* ================================================================== *)
(** * Package sort                                                     *)
(* ================================================================== *)

Module sort.

Section Slice.
Context {A : Type} (less : A -> A -> bool).

Fixpoint place (x : A) (l : list A) : list A :=
  match l with
  | [] => [x]
  | y :: l' => if less x y then x :: l else y :: place x l'
  end.

(** [sort.Slice(s, less)]: [s] rearranged into an order in which no
    element is [less] than an earlier one. Go leaves the order of
    elements that compare equal open; an insertion sort fixes one. The
    movies sorted here carry the table's key, so no two compare equal. *)
Definition Slice (s : list A) : list A := foldr place [] s.
End Slice.

End sort.

(* ================================================================== *)
(** * The data of the API                                              *)
(* ================================================================== *)

Record Movie : Type := {
  ID : string;
  Name : string
}.

(** The field [Movie []Movie] of the source shares its name with the type;
    it is [Movie_] here. *)
Record PaginatedMovie : Type := {
  Movie_ : list Movie;
  ActualPage : Z;
  TotalPages : Z
}.

Record FeedbackResponse : Type := {
  Success : bool;
  Message : string
}.

Module http.
Definition MethodGet : string := "GET".
Definition MethodPost : string := "POST".
Definition MethodPut : string := "PUT".
Definition MethodDelete : string := "DELETE".
Definition StatusOK : Z := 200.
Definition StatusBadRequest : Z := 400.
Definition StatusNotFound : Z := 404.
Definition StatusMethodNotAllowed : Z := 405.
Definition StatusInternalServerError : Z := 500.
End http.

Module events.

(** The fields of [events.APIGatewayProxyRequest] the handlers read. *)
Record APIGatewayProxyRequest : Type := {
  HTTPMethod : string;
  PathParameters : gmap string string;
  QueryStringParameters : gmap string string;
  Body : string
}.

(** The fields of [events.APIGatewayProxyResponse] the handlers set; a
    response built without [Headers] has the nil (empty) map. *)
Record APIGatewayProxyResponse : Type := {
  StatusCode : Z;
  Headers : gmap string string;
  RespBody : string
}.

End events.

(* ================================================================== *)
(** * Package encoding/json                                            *)
(* ================================================================== *)

(** The codec of the Go library: how a string value is quoted and escaped
    (it depends on the Go release), and the decoder of a request body into
    a [Movie]. *)
Class JSONCodec : Type := {
  encodeString : string -> string;
  Unmarshal : string -> result Movie
}.

Module json.

Definition dq : string := String "034"%char EmptyString.

(** An object key, between double quotes. *)
Definition key (name : string) : string := dq +:+ name +:+ dq +:+ ":".

Fixpoint join (sep : string) (l : list string) : string :=
  match l with
  | [] => ""
  | [x] => x
  | x :: rest => x +:+ sep +:+ join sep rest
  end.

Section Marshal.
Context `{JSONCodec}.

Definition object_of_Movie (m : Movie) : string :=
  "{" +:+ key "id" +:+ encodeString (ID m) +:+ ","
      +:+ key "name" +:+ encodeString (Name m) +:+ "}".

(** [json.Marshal] never fails on these three struct types: the error is
    always nil. *)
Definition Marshal_Movie (m : Movie) : result string :=
  Ok (object_of_Movie m).

(** The slices marshalled here are never nil, so an empty one prints as
    an empty array. *)
Definition Marshal_PaginatedMovie (p : PaginatedMovie) : result string :=
  Ok ("{" +:+ key "data" +:+ "[" +:+ join "," (map object_of_Movie (Movie_ p)) +:+ "],"
          +:+ key "actual_page" +:+ strconv.Itoa (ActualPage p) +:+ ","
          +:+ key "total_pages" +:+ strconv.Itoa (TotalPages p) +:+ "}").

Definition Marshal_FeedbackResponse (r : FeedbackResponse) : result string :=
    Ok ("{" +:+ key "success" +:+ (if Success r then "true" else "false") +:+ ","
            +:+ key "message" +:+ encodeString (Message r) +:+ "}").
End Marshal.

End json.

(* ================================================================== *)
(** * The DynamoDB client                                              *)
(* ================================================================== *)

Module dynamodb.

(** [dynamodb.AttributeValue]: only the string member [S] is read or
    written; it is a pointer, nil when the attribute has another type. *)
Record AttributeValue : Type := { S : option string }.

#[global] Instance AttributeValue_eq_dec : EqDecision AttributeValue.
Proof. solve_decision. Defined.

(** An item, [map[string]*dynamodb.AttributeValue]. *)
Abbreviation Item := (gmap string AttributeValue).

Record ScanInput : Type := { scan_TableName : string }.
Record ScanOutput : Type := { Items : list Item }.

Record GetItemInput : Type := { get_TableName : string; get_Key : Item }.
Record GetItemOutput : Type := { Item_ : Item }.

Record PutItemInput : Type := { put_TableName : string; put_Item : Item }.

Record UpdateItemInput : Type := {
  ExpressionAttributeNames : gmap string string;
  ExpressionAttributeValues : Item;
  upd_Key : Item;
  upd_TableName : string;
  UpdateExpression : string
}.

Record DeleteItemInput : Type := { del_TableName : string; del_Key : Item }.

(** One request sent to the table. *)
Inductive Call : Type :=
| CallScan (i : ScanInput)
| CallGetItem (i : GetItemInput)
| CallPutItem (i : PutItemInput)
| CallUpdateItem (i : UpdateItemInput)
| CallDeleteItem (i : DeleteItemInput).

(** The client [svc]: each operation answers with an output or an error,
    and may change the state [W] of the service. *)
Class API (W : Type) : Type := {
  Scan : ScanInput -> W -> result ScanOutput * W;
  GetItem : GetItemInput -> W -> result GetItemOutput * W;
  PutItem : PutItemInput -> W -> result unit * W;
  UpdateItem : UpdateItemInput -> W -> result unit * W;
  DeleteItem : DeleteItemInput -> W -> result unit * W
}.

(** The pointer chain [*item[k].S]: a nil-pointer panic when the attribute
    is missing or is not a string. *)
Definition deref_S (item : Item) (k : string) : Outcome string :=
  match item !! k with
  | Some av =>
      match S av with
      | Some s => Ret s
      | None => Panic nil_pointer_dereference
      end
  | None => Panic nil_pointer_dereference
  end.

End dynamodb.

(** The process environment, [os.Getenv]. *)
Class Environ : Type := { Getenv : string -> string }.

(* ================================================================== *)
(** * Handlers as state transformers                                   *)
(* ================================================================== *)

(** What a handler runs against: the service behind the client, and the
    log of the requests sent to it so far. *)
Record St (W : Type) : Type := {
  calls : list dynamodb.Call;
  world : W
}.
Arguments calls {W} s.
Arguments world {W} s.
Arguments Build_St {W} calls world.

Definition M (W A : Type) : Type := St W -> Outcome A * St W.

Definition ret {W A : Type} (a : A) : M W A := fun st => (Ret a, st).

Definition bind {W A B : Type} (c : M W A) (k : A -> M W B) : M W B :=
  fun st =>
    match c st with
    | (Ret a, st') => k a st'
    | (Panic e, st') => (Panic e, st')
    end.

Definition lift {W A : Type} (o : Outcome A) : M W A := fun st => (o, st).

Declare Scope handler_scope.
Delimit Scope handler_scope with handler.
Notation "x <- c1 ;; c2" := (bind c1 (fun x => c2))
  (at level 100, c1 at next level, right associativity) : handler_scope.

(** One round trip to the table: the request is logged and the service
    answers. *)
Definition call {W A : Type} (c : dynamodb.Call) (op : W -> result A * W) : M W (result A) :=
  fun st =>
    let '(r, w) := op (world st) in
    (Ret r, {| calls := calls st ++ [c]; world := w |}).

(* ================================================================== *)
(** * The router lambda                                                *)
(* ================================================================== *)

(** Every operation builds its client anew ([session.Must],
    [dynamodb.New]); this reads the configuration of the process only and
    is taken to succeed. The handlers always return a nil error next to
    their response. *)

Section Router.
Context {W : Type} `{!dynamodb.API W} `{!Environ} `{!JSONCodec}.

Local Open Scope handler_scope.

Local Abbreviation Request := events.APIGatewayProxyRequest.
Local Abbreviation Response := events.APIGatewayProxyResponse.
Local Abbreviation Handler := (Request -> M W (Response * error)).

(** The header map every response of the router carries. *)
Definition jsonHeaders : gmap string string :=
  {[ "Content-Type" := "application/json" ]}.

Definition jsonErrorResponse (errMessage : string) : string :=
  let res := {| Success := false; Message := errMessage |} in
  match json.Marshal_FeedbackResponse res with
  | Ok jsonResponse => jsonResponse
  | Err _ => ""
  end.

Definition jsonSuccessResponse (successMessage : string) : string :=
  let res := {| Success := true; Message := successMessage |} in
  match json.Marshal_FeedbackResponse res with
  | Ok jsonResponse => jsonResponse
  | Err _ => ""
  end.

(** The two bounds [start] and [end] that [paginateMovies] slices with:
    the decrement of [pageNum], the two offsets and the two clamps. *)
Definition sliceBounds (sliceLength pageNum pageSize : Z) : Z * Z :=
  let pageNum := wrap64 (pageNum - 1) in
  let start := wrap64 (pageNum * pageSize) in
  let end_ := wrap64 (start + pageSize) in
  let start := if start >? sliceLength then sliceLength else start in
  let end_ := if end_ >? sliceLength then sliceLength else end_ in
  (start, end_).

Definition paginateMovies (movies : list Movie) (pageNum pageSize : Z)
  : Outcome (list Movie * Z) :=
  let sliceLength := len movies in
  let totalPages :=
    int_of_float64
      (math.Ceil (float64_div (float64_of_int sliceLength) (float64_of_int pageSize))) in
  let '(start, end_) := sliceBounds sliceLength pageNum pageSize in
  (pagedMovies <- go_slice movies start end_ ;;
   Ret (pagedMovies, totalPages))%go.

(** The loop over [res.Items] that appends one [Movie] per item. *)
Fixpoint range_Items (items : list dynamodb.Item) (movies : list Movie)
  : Outcome (list Movie) :=
  match items with
  | [] => Ret movies
  | item :: rest =>
      (id <- dynamodb.deref_S item "ID" ;;
       name <- dynamodb.deref_S item "Name" ;;
       range_Items rest (movies ++ [{| ID := id; Name := name |}]))%go
  end.

(** The [page] query parameter, ["1"] when it is the empty string. *)
Definition pageParam (req : Request) : string :=
  let page := go_index (events.QueryStringParameters req) "page" in
  if String.eqb page "" then "1" else page.

Definition findAllMovies : Handler := fun req =>
  let params := {| dynamodb.scan_TableName := Getenv "TABLE_NAME" |} in
  res <- call (dynamodb.CallScan params) (dynamodb.Scan params) ;;
  match res with
  | Err _ =>
      ret ({| events.StatusCode := http.StatusInternalServerError;
              events.Headers := jsonHeaders;
              events.RespBody := jsonErrorResponse "Error while scanning DynamoDB" |}, nil)
  | Ok res =>
      movies <- lift (range_Items (dynamodb.Items res) []) ;;
      let movies := sort.Slice (fun a b => String.ltb (ID a) (ID b)) movies in
      let page := pageParam req in
      match strconv.Atoi page with
      | None =>
          ret ({| events.StatusCode := http.StatusInternalServerError;
                  events.Headers := jsonHeaders;
                  events.RespBody :=
                    jsonErrorResponse "Only numbers accepted in page query string" |}, nil)
      | Some pageNum =>
          pt <- lift (paginateMovies movies pageNum 3) ;;
          let paginated := fst pt in
          let totalPages := snd pt in
          if pageNum >? totalPages then
            ret ({| events.StatusCode := http.StatusBadRequest;
                    events.Headers := jsonHeaders;
                    events.RespBody :=
                      jsonErrorResponse "The requested page exceeds the total of pages" |}, nil)
          else
            let pagedMovies := {| Movie_ := paginated;
                                  ActualPage := pageNum;
                                  TotalPages := totalPages |} in
            match json.Marshal_PaginatedMovie pagedMovies with
            | Err _ =>
                ret ({| events.StatusCode := http.StatusInternalServerError;
                        events.Headers := jsonHeaders;
                        events.RespBody :=
                          jsonErrorResponse "Error while decoding to string value" |}, nil)
            | Ok data =>
                ret ({| events.StatusCode := http.StatusOK;
                        events.Headers := jsonHeaders;
                        events.RespBody := data |}, nil)
            end
      end
  end.

(** The parameters of the lookup by key. *)
Definition findOneParams (id : string) : dynamodb.GetItemInput :=
  {| dynamodb.get_TableName := Getenv "TABLE_NAME";
     dynamodb.get_Key := {[ "ID" := {| dynamodb.S := Some id |} ]} |}.

Definition findOneMovie : Handler := fun req =>
  let id := go_index (events.PathParameters req) "id" in
  let params := findOneParams id in
  res <- call (dynamodb.CallGetItem params) (dynamodb.GetItem params) ;;
  match res with
  | Err _ =>
      ret ({| events.StatusCode := http.StatusInternalServerError;
              events.Headers := jsonHeaders;
              events.RespBody := jsonErrorResponse "Error while getting item DynamoDB" |}, nil)
  | Ok res =>
      if (size (dynamodb.Item_ res) =? 0)%nat then
        ret ({| events.StatusCode := http.StatusNotFound;
                events.Headers := jsonHeaders;
                events.RespBody :=
                  jsonErrorResponse "Movie not found with the ID provided" |}, nil)
      else
        id' <- lift (dynamodb.deref_S (dynamodb.Item_ res) "ID") ;;
        name <- lift (dynamodb.deref_S (dynamodb.Item_ res) "Name") ;;
        let movie := {| ID := id'; Name := name |} in
        match json.Marshal_Movie movie with
        | Err _ =>
            ret ({| events.StatusCode := http.StatusInternalServerError;
                    events.Headers := jsonHeaders;
                    events.RespBody :=
                      jsonErrorResponse "Error while decoding to string value" |}, nil)
        | Ok data =>
            ret ({| events.StatusCode := http.StatusOK;
                    events.Headers := jsonHeaders;
                    events.RespBody := data |}, nil)
        end
  end.

(** The parameters of the put: the item with its two string attributes. *)
Definition insertParams (movie : Movie) : dynamodb.PutItemInput :=
  {| dynamodb.put_TableName := Getenv "TABLE_NAME";
     dynamodb.put_Item :=
       {[ "ID" := {| dynamodb.S := Some (ID movie) |};
          "Name" := {| dynamodb.S := Some (Name movie) |} ]} |}.

Definition insertMovie : Handler := fun req =>
  match Unmarshal (events.Body req) with
  | Err _ =>
      ret ({| events.StatusCode := http.StatusBadRequest;
              events.Headers := jsonHeaders;
              events.RespBody := jsonErrorResponse "Invalid payload" |}, nil)
  | Ok movie =>
      let params := insertParams movie in
      res <- call (dynamodb.CallPutItem params) (dynamodb.PutItem params) ;;
      match res with
      | Err _ =>
          ret ({| events.StatusCode := http.StatusInternalServerError;
                  events.Headers := jsonHeaders;
                  events.RespBody :=
                    jsonErrorResponse "Error inserting movie into DynamoDB" |}, nil)
      | Ok _ =>
          ret ({| events.StatusCode := 200;
                  events.Headers := jsonHeaders;
                  events.RespBody := jsonSuccessResponse "Movie inserted successfully" |}, nil)
      end
  end.

(** The parameters of the partial update [SET #NAME = :name]. *)
Definition updateParams (movie : Movie) : dynamodb.UpdateItemInput :=
  {| dynamodb.ExpressionAttributeNames := {[ "#NAME" := "Name" ]};
     dynamodb.ExpressionAttributeValues :=
       {[ ":name" := {| dynamodb.S := Some (Name movie) |} ]};
     dynamodb.upd_Key := {[ "ID" := {| dynamodb.S := Some (ID movie) |} ]};
     dynamodb.upd_TableName := Getenv "TABLE_NAME";
     dynamodb.UpdateExpression := "SET #NAME = :name" |}.

Definition updateMovie : Handler := fun req =>
  match Unmarshal (events.Body req) with
  | Err _ =>
      ret ({| events.StatusCode := http.StatusBadRequest;
              events.Headers := jsonHeaders;
              events.RespBody := jsonErrorResponse "Invalid payload" |}, nil)
  | Ok movie =>
      let params := updateParams movie in
      res <- call (dynamodb.CallUpdateItem params) (dynamodb.UpdateItem params) ;;
      match res with
      | Err _ =>
          ret ({| events.StatusCode := http.StatusInternalServerError;
                  events.Headers := jsonHeaders;
                  events.RespBody :=
                    jsonErrorResponse "Error updating movie from DynamoDB" |}, nil)
      | Ok _ =>
          ret ({| events.StatusCode := 200;
                  events.Headers := jsonHeaders;
                  events.RespBody := jsonSuccessResponse "Movie updated successfully" |}, nil)
      end
  end.

Definition deleteParams (movie : Movie) : dynamodb.DeleteItemInput :=
  {| dynamodb.del_TableName := Getenv "TABLE_NAME";
     dynamodb.del_Key := {[ "ID" := {| dynamodb.S := Some (ID movie) |} ]} |}.

Definition deleteMovie : Handler := fun req =>
  match Unmarshal (events.Body req) with
  | Err _ =>
      ret ({| events.StatusCode := http.StatusBadRequest;
              events.Headers := jsonHeaders;
              events.RespBody := jsonErrorResponse "Invalid payload" |}, nil)
  | Ok movie =>
      let params := deleteParams movie in
      res <- call (dynamodb.CallDeleteItem params) (dynamodb.DeleteItem params) ;;
      match res with
      | Err _ =>
          ret ({| events.StatusCode := http.StatusInternalServerError;
                  events.Headers := jsonHeaders;
                  events.RespBody :=
                    jsonErrorResponse "Error deleting movie into DynamoDB" |}, nil)
      | Ok _ =>
          ret ({| events.StatusCode := 200;
                  events.Headers := jsonHeaders;
                  events.RespBody := jsonSuccessResponse "Movie deleted successfully" |}, nil)
      end
  end.

Definition handleRequest : Handler := fun req =>
  if String.eqb (events.HTTPMethod req) http.MethodGet then
    if String.eqb (go_index (events.PathParameters req) "id") "" then
      findAllMovies req
    else
      findOneMovie req
  else if String.eqb (events.HTTPMethod req) http.MethodPost then
    insertMovie req
  else if String.eqb (events.HTTPMethod req) http.MethodPut then
    updateMovie req
  else if String.eqb (events.HTTPMethod req) http.MethodDelete then
    deleteMovie req
  else
    ret ({| events.StatusCode := http.StatusMethodNotAllowed;
            events.Headers := jsonHeaders;
            events.RespBody := jsonErrorResponse "Unsupported HTTP method" |}, nil).

End Router.

(* ================================================================== *)
(** * The single-operation lambdas                                     *)
(* ================================================================== *)

(** Each of these is a [package main] of its own with one handler. They
  build the same request parameters as the router's operations. *)

Module Update.
Section Lambda.
Context {W : Type} `{!dynamodb.API W} `{!Environ} `{!JSONCodec}.
Local Open Scope handler_scope.

Definition update (req : events.APIGatewayProxyRequest)
  : M W (events.APIGatewayProxyResponse * error) :=
  match Unmarshal (events.Body req) with
  | Err err =>
      ret ({| events.StatusCode := http.StatusBadRequest;
              events.Headers := ∅;
              events.RespBody := "Invalid payload: " +:+ err |}, nil)
  | Ok movie =>
      let params := updateParams movie in
      res <- call (dynamodb.CallUpdateItem params) (dynamodb.UpdateItem params) ;;
      match res with
      | Err err =>
          ret ({| events.StatusCode := http.StatusInternalServerError;
                  events.Headers := ∅;
                  events.RespBody := "Error updating movie from DynamoDB: " +:+ err |}, nil)
      | Ok _ =>
          ret ({| events.StatusCode := 200;
                  events.Headers := {[ "Content-Type" := "application/json" ]};
                  events.RespBody := "Movie updated successfully" |}, nil)
      end
  end.

End Lambda.
End Update.

Module FindOne.
Section Lambda.
Context {W : Type} `{!dynamodb.API W} `{!Environ} `{!JSONCodec}.
Local Open Scope handler_scope.

Definition findOne (req : events.APIGatewayProxyRequest)
  : M W (events.APIGatewayProxyResponse * error) :=
  let id := go_index (events.PathParameters req) "id" in
  let params := findOneParams id in
  res <- call (dynamodb.CallGetItem params) (dynamodb.GetItem params) ;;
  match res with
  | Err _ =>
      ret ({| events.StatusCode := http.StatusInternalServerError;
              events.Headers := ∅;
              events.RespBody := "Error while getting item DynamoDB" |}, nil)
  | Ok res =>
      id' <- lift (dynamodb.deref_S (dynamodb.Item_ res) "ID") ;;
      name <- lift (dynamodb.deref_S (dynamodb.Item_ res) "Name") ;;
      let movie := {| ID := id'; Name := name |} in
      match json.Marshal_Movie movie with
      | Err _ =>
          ret ({| events.StatusCode := http.StatusInternalServerError;
                  events.Headers := ∅;
                  events.RespBody := "Error while decoding to string value" |}, nil)
      | Ok data =>
          ret ({| events.StatusCode := http.StatusOK;
                  events.Headers := {[ "Content-Type" := "application/json" ]};
                  events.RespBody := data |}, nil)
      end
  end.

End Lambda.
End FindOne.

Module Delete.
Section Lambda.
Context {W : Type} `{!dynamodb.API W} `{!Environ} `{!JSONCodec}.
Local Open Scope handler_scope.

Definition delete (req : events.APIGatewayProxyRequest)
  : M W (events.APIGatewayProxyResponse * error) :=
  match Unmarshal (events.Body req) with
  | Err err =>
      ret ({| events.StatusCode := http.StatusBadRequest;
              events.Headers := ∅;
              events.RespBody := "Invalid payload: " +:+ err |}, nil)
  | Ok movie =>
      let params := deleteParams movie in
      res <- call (dynamodb.CallDeleteItem params) (dynamodb.DeleteItem params) ;;
      match res with
      | Err err =>
          ret ({| events.StatusCode := http.StatusInternalServerError;
                  events.Headers := ∅;
                  events.RespBody := "Error deleting movie into DynamoDB: " +:+ err |}, nil)
      | Ok _ =>
          ret ({| events.StatusCode := 200;
                  events.Headers := {[ "Content-Type" := "application/json" ]};
                  events.RespBody := "Movie deleted successfully" |}, nil)
      end
  end.

End Lambda.
End Delete.

Module Insert.
Section Lambda.
Context {W : Type} `{!dynamodb.API W} `{!Environ} `{!JSONCodec}.
Local Open Scope handler_scope.

Definition insert (req : events.APIGatewayProxyRequest)
  : M W (events.APIGatewayProxyResponse * error) :=
  match Unmarshal (events.Body req) with
  | Err err =>
      ret ({| events.StatusCode := http.StatusBadRequest;
              events.Headers := ∅;
              events.RespBody := "Invalid payload: " +:+ err |}, nil)
  | Ok movie =>
      let params := insertParams movie in
      res <- call (dynamodb.CallPutItem params) (dynamodb.PutItem params) ;;
      match res with
      | Err err =>
          ret ({| events.StatusCode := http.StatusInternalServerError;
                  events.Headers := ∅;
                  events.RespBody := "Error inserting movie into DynamoDB: " +:+ err |}, nil)
      | Ok _ =>
          ret ({| events.StatusCode := 200;
                  events.Headers := {[ "Content-Type" := "application/json" ]};
                  events.RespBody := "Movie inserted successfully" |}, nil)
      end
  end.

End Lambda.
End Insert.

(* ================================================================== *)
(** * Notions the statements use                                       *)
(* ================================================================== *)

(** The elements of [l] whose index [i] satisfies [lo <= i < hi]: the
    sub-sequence from offset [lo] through [hi], clipped to the bounds of
    [l]. [i] is the index of the head of [l]. *)
Fixpoint window_from {A : Type} (i : Z) (l : list A) (lo hi : Z) : list A :=
  match l with
  | [] => []
  | x :: l' =>
      if (lo <=? i) && (i <? hi)
      then x :: window_from (i + 1) l' lo hi
      else window_from (i + 1) l' lo hi
  end.

Definition window {A : Type} (l : list A) (lo hi : Z) : list A :=
  window_from 0 l lo hi.

(** [t] is the ceiling of the quotient [n / p]. *)
Definition is_ceiling (t n p : Z) : Prop := p * (t - 1) < n <= p * t.

(** The page numbers [1, 2, ..., total]. *)
Definition page_numbers (total : Z) : list Z :=
  map Z.of_nat (seq 1 (Z.to_nat total)).

(** The pages of a list of page numbers, when each of them is served. *)
Fixpoint served (movies : list Movie) (ps : list Z) : Outcome (list (list Movie)) :=
  match ps with
  | [] => Ret []
  | p :: ps' =>
      (pt <- paginateMovies movies p 3 ;;
       rest <- served movies ps' ;;
       Ret (fst pt :: rest))%go
  end.

(** The movie an item of the table stands for, when it has its two string
    attributes. *)
Definition movie_of_item (item : dynamodb.Item) : Outcome Movie :=
  (id <- dynamodb.deref_S item "ID" ;;
   name <- dynamodb.deref_S item "Name" ;;
   Ret {| ID := id; Name := name |})%go.

Definition well_formed_item (item : dynamodb.Item) : bool :=
  match movie_of_item item with
  | Ret _ => true
  | Panic _ => false
  end.

(** The movies of a list of well-formed items, in the order of the items. *)
Fixpoint movies_of_items (items : list dynamodb.Item) : list Movie :=
  match items with
  | [] => []
  | item :: rest =>
      match movie_of_item item with
      | Ret m => m :: movies_of_items rest
      | Panic _ => movies_of_items rest
      end
  end.

(** The collection a list request sees: the scanned movies sorted by id. *)
Definition sorted_collection (items : list dynamodb.Item) : list Movie :=
  sort.Slice (fun a b => String.ltb (ID a) (ID b)) (movies_of_items items).

(** A page number for which the offsets computed by [paginateMovies] with
    page size 3 stay inside the int range. *)
Definition page_in_range (p : Z) : Prop := 1 <= p /\ 3 * p <= MaxInt64.

(** The status codes the router gives its error responses. *)
Definition error_status (c : Z) : Prop :=
  c = 400 \/ c = 404 \/ c = 405 \/ c = 500.

Section Shapes.
Context `{!JSONCodec}.

(** The response of the router with an error envelope. *)
Definition error_response (status : Z) (message : string)
  : events.APIGatewayProxyResponse * error :=
  ({| events.StatusCode := status;
      events.Headers := jsonHeaders;
      events.RespBody := jsonErrorResponse message |}, nil).

(** The response of the router with a success envelope. *)
Definition success_response (message : string)
  : events.APIGatewayProxyResponse * error :=
  ({| events.StatusCode := 200;
      events.Headers := jsonHeaders;
      events.RespBody := jsonSuccessResponse message |}, nil).

(** The response of the router with the JSON of a read. *)
Definition data_response (data : string)
  : events.APIGatewayProxyResponse * error :=
  ({| events.StatusCode := 200;
      events.Headers := jsonHeaders;
      events.RespBody := data |}, nil).

(** A response of a single-operation lambda that sets no header. *)
Definition bare_response (status : Z) (text : string)
  : events.APIGatewayProxyResponse * error :=
  ({| events.StatusCode := status;
      events.Headers := ∅;
      events.RespBody := text |}, nil).

(** The JSON of page [p] of a collection with [total] pages. *)
Definition page_json (movies : list Movie) (p total : Z) : string :=
  match json.Marshal_PaginatedMovie
          {| Movie_ := window movies ((p - 1) * 3) (p * 3);
             ActualPage := p;
             TotalPages := total |} with
  | Ok data => data
  | Err _ => ""
  end.

(** A body that is the envelope [{success, message}]. *)
Definition is_envelope (body : string) : Prop :=
  exists (success : bool) (message : string),
    json.Marshal_FeedbackResponse {| Success := success; Message := message |} = Ok body.

(** A body that is the JSON of one movie. *)
Definition is_movie_json (body : string) : Prop :=
  exists m : Movie, json.Marshal_Movie m = Ok body.

(** A body that is the JSON of a page [{data, actual_page, total_pages}]. *)
Definition is_page_json (body : string) : Prop :=
  exists p : PaginatedMovie, json.Marshal_PaginatedMovie p = Ok body.

(** The three shapes of a response of the router, each with the JSON
    content type: an error (an error status and the envelope with
    [success] false), the success of a write (status 200 and the envelope
    with [success] true), a read (status 200 and the JSON of a movie or of
    a page). *)
Definition error_shaped (r : events.APIGatewayProxyResponse) : Prop :=
  error_status (events.StatusCode r) /\
  events.Headers r !! "Content-Type" = Some "application/json" /\
  exists message, events.RespBody r = jsonErrorResponse message.

Definition success_shaped (r : events.APIGatewayProxyResponse) : Prop :=
  events.StatusCode r = 200 /\
  events.Headers r !! "Content-Type" = Some "application/json" /\
  exists message, events.RespBody r = jsonSuccessResponse message.

Definition read_shaped (r : events.APIGatewayProxyResponse) : Prop :=
  events.StatusCode r = 200 /\
  events.Headers r !! "Content-Type" = Some "application/json" /\
  (is_movie_json (events.RespBody r) \/ is_page_json (events.RespBody r)).

(** A structured response to [req]: an error, or else what the method
    asks for, a read for GET and the success of a write for the others. *)
Definition structured (req : events.APIGatewayProxyRequest)
    (r : events.APIGatewayProxyResponse) : Prop :=
  error_shaped r \/
  (if String.eqb (events.HTTPMethod req) http.MethodGet
   then read_shaped r
   else success_shaped r).

End Shapes.

(** The state after one more request [c] was sent and the service moved
    to [w]. *)
Definition sent {W : Type} (st : St W) (c : dynamodb.Call) (w : W) : St W :=
  {| calls := calls st ++ [c]; world := w |}.

(** The status code a run ends with, when it ends with a response. *)
Definition status_of {W : Type}
    (run : Outcome (events.APIGatewayProxyResponse * error) * St W) : option Z :=
  match fst run with
  | Ret (r, _) => Some (events.StatusCode r)
  | Panic _ => None
  end.

(** The body a run ends with, when it ends with a response. *)
Definition body_of {W : Type}
    (run : Outcome (events.APIGatewayProxyResponse * error) * St W) : option string :=
  match fst run with
  | Ret (r, _) => Some (events.RespBody r)
  | Panic _ => None
  end.

(** The service answers the scan and the lookup issued from state [w] with
    well-formed items only (a lookup may also answer with no item). *)
Definition well_formed_answers {W : Type} `{!dynamodb.API W} (w : W) : Prop :=
  (forall i out w', dynamodb.Scan i w = (Ok out, w') ->
     forallb well_formed_item (dynamodb.Items out) = true) /\
  (forall i out w', dynamodb.GetItem i w = (Ok out, w') ->
     size (dynamodb.Item_ out) = 0%nat \/ well_formed_item (dynamodb.Item_ out) = true).

(* ================================================================== *)
(** * An in-memory table, for the examples                             *)
(* ================================================================== *)

Module InMemory.

(** A table held in a list of items, keyed by the attribute [ID]; while
    [outage] is set every operation fails with that error text. It follows
    the storage contract the handlers rely on: put is an upsert, update
    sets the name of the keyed item or creates it, delete is
    unconditional. *)
Record Table : Type := {
  rows : list dynamodb.Item;
  outage : option string
}.

Definition same_key (k r : dynamodb.Item) : bool :=
  bool_decide (r !! "ID" = k !! "ID").

Definition guarded {A : Type} (t : Table) (ok : result A * Table) : result A * Table :=
  match outage t with
  | Some e => (Err e, t)
  | None => ok
  end.

Definition mem_Scan (i : dynamodb.ScanInput) (t : Table) : result dynamodb.ScanOutput * Table :=
  guarded t (Ok {| dynamodb.Items := rows t |}, t).

Definition mem_GetItem (i : dynamodb.GetItemInput) (t : Table)
  : result dynamodb.GetItemOutput * Table :=
  guarded t
    (Ok {| dynamodb.Item_ := default ∅ (List.find (same_key (dynamodb.get_Key i)) (rows t)) |}, t).

Definition mem_PutItem (i : dynamodb.PutItemInput) (t : Table) : result unit * Table :=
  guarded t
    (Ok tt, {| rows := List.filter (fun r => negb (same_key (dynamodb.put_Item i) r)) (rows t)
                        ++ [dynamodb.put_Item i];
               outage := outage t |}).

Definition set_name (i : dynamodb.UpdateItemInput) (r : dynamodb.Item) : dynamodb.Item :=
  match dynamodb.ExpressionAttributeValues i !! ":name" with
  | Some v => <[ "Name" := v ]> r
  | None => r
  end.

Definition mem_UpdateItem (i : dynamodb.UpdateItemInput) (t : Table) : result unit * Table :=
  guarded t
    (Ok tt,
     {| rows :=
          if existsb (same_key (dynamodb.upd_Key i)) (rows t)
          then map (fun r => if same_key (dynamodb.upd_Key i) r then set_name i r else r) (rows t)
          else rows t ++ [set_name i (dynamodb.upd_Key i)];
        outage := outage t |}).

Definition mem_DeleteItem (i : dynamodb.DeleteItemInput) (t : Table) : result unit * Table :=
  guarded t
    (Ok tt, {| rows := List.filter (fun r => negb (same_key (dynamodb.del_Key i) r)) (rows t);
               outage := outage t |}).

Definition api : dynamodb.API Table :=
  {| dynamodb.Scan := mem_Scan;
     dynamodb.GetItem := mem_GetItem;
     dynamodb.PutItem := mem_PutItem;
     dynamodb.UpdateItem := mem_UpdateItem;
     dynamodb.DeleteItem := mem_DeleteItem |}.

Definition env : Environ :=
  {| Getenv := fun k => if String.eqb k "TABLE_NAME" then "movies" else "" |}.

(** A codec for bodies of the exact shape [{"id":"..","name":".."}] whose
    strings need no escaping. *)
Fixpoint strip_prefix (p s : string) : option string :=
  match p with
  | EmptyString => Some s
  | String a p' =>
      match s with
      | String b s' => if Ascii.eqb a b then strip_prefix p' s' else None
      | EmptyString => None
      end
  end.

Fixpoint until_quote (s : string) : option (string * string) :=
  match s with
  | EmptyString => None
  | String c s' =>
      if Ascii.eqb c "034"%char then Some (EmptyString, s')
      else if Ascii.eqb c "092"%char then None
      else match until_quote s' with
           | Some (a, r) => Some (String c a, r)
           | None => None
           end
  end.

Definition syntax_error : string := "invalid character in the JSON input".

Definition flat_Unmarshal (body : string) : result Movie :=
  match strip_prefix ("{" +:+ json.key "id" +:+ json.dq) body with
  | None => Err syntax_error
  | Some s1 =>
      match until_quote s1 with
      | None => Err syntax_error
      | Some (id, s2) =>
          match strip_prefix ("," +:+ json.key "name" +:+ json.dq) s2 with
          | None => Err syntax_error
          | Some s3 =>
              match until_quote s3 with
              | Some (name, "}") => Ok {| ID := id; Name := name |}
              | _ => Err syntax_error
              end
          end
      end
  end.

Definition codec : JSONCodec :=
  {| encodeString := fun s => json.dq +:+ s +:+ json.dq;
     Unmarshal := flat_Unmarshal |}.

(** The item of a movie, as the put operation stores it. *)
Definition item_of (id name : string) : dynamodb.Item :=
  {[ "ID" := {| dynamodb.S := Some id |}; "Name" := {| dynamodb.S := Some name |} ]}.

Definition table_of (movies : list (string * string)) : Table :=
  {| rows := map (fun m => item_of (fst m) (snd m)) movies; outage := None |}.

Definition start (t : Table) : St Table := {| calls := []; world := t |}.

Definition get (path query : gmap string string) : events.APIGatewayProxyRequest :=
  {| events.HTTPMethod := "GET";
     events.PathParameters := path;
     events.QueryStringParameters := query;
     events.Body := "" |}.

Definition send (method body : string) : events.APIGatewayProxyRequest :=
  {| events.HTTPMethod := method;
     events.PathParameters := ∅;
     events.QueryStringParameters := ∅;
     events.Body := body |}.

(** Seven movies, sorted by id. *)
Definition seven : list Movie :=
  [ {| ID := "m1"; Name := "Alpha" |}; {| ID := "m2"; Name := "Beta" |};
    {| ID := "m3"; Name := "Gamma" |}; {| ID := "m4"; Name := "Delta" |};
    {| ID := "m5"; Name := "Epsilon" |}; {| ID := "m6"; Name := "Zeta" |};
    {| ID := "m7"; Name := "Eta" |} ].

(** A table of four movies, stored out of order: two pages. *)
Definition four : Table :=
  table_of [("m2", "Beta"); ("m1", "Alpha"); ("m4", "Delta"); ("m3", "Gamma")].

(** A table that is down. *)
Definition down : Table :=
  {| rows := []; outage := Some "ResourceNotFoundException: Requested resource not found" |}.

(** The body [{"id":"m1","name":"Alpha"}]. *)
Definition alpha_body : string :=
  "{" +:+ json.key "id" +:+ json.dq +:+ "m1" +:+ json.dq +:+ ","
      +:+ json.key "name" +:+ json.dq +:+ "Alpha" +:+ json.dq +:+ "}".

(** The handlers run against the in-memory table. *)
Definition router := @handleRequest Table api env codec.
Definition listing := @findAllMovies Table api env codec.
Definition get_one := @findOneMovie Table api env codec.
Definition create := @insertMovie Table api env codec.
Definition modify := @updateMovie Table api env codec.
Definition lambda_findOne := @FindOne.findOne Table api env codec.
Definition lambda_insert := @Insert.insert Table api env codec.
Definition lambda_update := @Update.update Table api env codec.
Definition lambda_delete := @Delete.delete Table api env codec.

End InMemory.

(* ================================================================== *)
(** * What a request makes the router send                             *)
(* ================================================================== *)

Section Requests.
Context `{!Environ} `{!JSONCodec}.

(** The requests to the table that answering [req] takes: one scan for a
    list, one lookup for a get-one, one put, update or delete for a write
    whose body decodes, none otherwise. *)
Definition requests_of (req : events.APIGatewayProxyRequest) : list dynamodb.Call :=
  if String.eqb (events.HTTPMethod req) "GET" then
    if String.eqb (go_index (events.PathParameters req) "id") ""
    then [dynamodb.CallScan {| dynamodb.scan_TableName := Getenv "TABLE_NAME" |}]
    else [dynamodb.CallGetItem
            (findOneParams (go_index (events.PathParameters req) "id"))]
  else
    match Unmarshal (events.Body req) with
    | Err _ => []
    | Ok movie =>
        if String.eqb (events.HTTPMethod req) "POST"
        then [dynamodb.CallPutItem (insertParams movie)]
        else if String.eqb (events.HTTPMethod req) "PUT"
        then [dynamodb.CallUpdateItem (updateParams movie)]
        else if String.eqb (events.HTTPMethod req) "DELETE"
        then [dynamodb.CallDeleteItem (deleteParams movie)]
        else []
    end.

End Requests.

(** Situations on the in-memory table. *)
Module Scenarios.

(** A table with one row that has a key and no name. *)
Definition nameless : InMemory.Table :=
  {| InMemory.rows := [ {[ "ID" := {| dynamodb.S := Some "m9" |} ]} ];
     InMemory.outage := None |}.

(** The four movies and one row without a name. *)
Definition tainted : InMemory.Table :=
  {| InMemory.rows := InMemory.rows InMemory.four ++ InMemory.rows nameless;
     InMemory.outage := None |}.

(** The state after the movie [m1], Alpha, was created in an empty table. *)
Definition after_create : St InMemory.Table :=
  snd (InMemory.create (InMemory.send "POST" InMemory.alpha_body)
         (InMemory.start (InMemory.table_of []))).

End Scenarios.


(* ================================================================== *)
(** * float64: the page count is the exact ceiling                     *)
(* ================================================================== *)

(** The quotient [float64(n) / float64(3)] is rounded, yet for every
    length below [2^53] its [math.Ceil] is the ceiling of the exact
    quotient: the rounding error is at most half a unit in the last place,
    and a quotient that is not an integer lies at least a third away from
    the next integer. *)

Ltac zdiv := Z.div_mod_to_equations; lia.

Lemma digits2_pos_bounds (p : positive) :
  2 ^ (Zpos (digits2_pos p) - 1) <= Zpos p < 2 ^ Zpos (digits2_pos p).
Proof.
  induction p as [p IH | p IH |]; cbn [digits2_pos].
  - rewrite Pos2Z.inj_succ.
    replace (Z.succ (Zpos (digits2_pos p)) - 1) with (Z.succ (Zpos (digits2_pos p) - 1)) by lia.
    rewrite !Z.pow_succ_r by lia. lia.
  - rewrite Pos2Z.inj_succ.
    replace (Z.succ (Zpos (digits2_pos p)) - 1) with (Z.succ (Zpos (digits2_pos p) - 1)) by lia.
    rewrite !Z.pow_succ_r by lia. lia.
  - cbn. lia.
Qed.

Lemma Zdigits2_unique (m k : Z) :
  0 < m -> 2 ^ (k - 1) <= m < 2 ^ k -> Zdigits2 m = k.
Proof.
  intros Hm [Hlo Hhi]. destruct m as [| p | p]; try lia.
  cbn [Zdigits2]. pose proof (digits2_pos_bounds p) as [Plo Phi].
  set (d := Zpos (digits2_pos p)) in *.
  assert (Hk : 0 < k).
  { destruct (Z_lt_le_dec 0 k) as [|Hk]; [assumption|].
    destruct (Z.eq_dec k 0) as [->|]; [cbn in Hhi; lia|].
    rewrite Z.pow_neg_r in Hhi by lia. lia. }
  assert (d - 1 < k) by (apply (Z.pow_lt_mono_r_iff 2); lia).
  assert (k - 1 < d) by (apply (Z.pow_lt_mono_r_iff 2); lia).
  lia.
Qed.

Lemma fexp64 (e : Z) : fexp 53 1024 e = Z.max (e - 53) (-1074).
Proof. reflexivity. Qed.

Lemma shr_fexp_53 (m e : Z) (l : location) :
  Zdigits2 m = 53 -> -1074 <= e ->
  shr_fexp 53 1024 m e l = (shr_record_of_loc m l, e).
Proof.
  intros Hd He. unfold shr_fexp. rewrite Hd, fexp64.
  replace (Z.max (53 + e - 53) (-1074) - e) with 0 by lia. reflexivity.
Qed.

Lemma shr_fexp_54 (m e : Z) (l : location) :
  Zdigits2 m = 54 -> -1075 <= e ->
  shr_fexp 53 1024 m e l = (shr_1 (shr_record_of_loc m l), e + 1).
Proof.
  intros Hd He. unfold shr_fexp. rewrite Hd, fexp64.
  replace (Z.max (54 + e - 53) (-1074) - e) with 1 by lia. reflexivity.
Qed.

Lemma shr_m_of_loc m l : shr_m (shr_record_of_loc m l) = m.
Proof. destruct l as [|[]]; reflexivity. Qed.

Lemma binary_round_aux_53 (s : bool) (m : positive) (e : Z) :
  Zdigits2 (Zpos m) = 53 -> -1074 <= e <= 971 ->
  binary_round_aux 53 1024 s (Zpos m) e loc_Exact = S754_finite s m e.
Proof.
  intros Hd He. unfold binary_round_aux.
  rewrite shr_fexp_53 by (assumption || lia). cbn [shr_record_of_loc shr_m loc_of_shr_record round_nearest_even].
  rewrite shr_fexp_53 by (assumption || lia). cbn [shr_record_of_loc shr_m].
  replace (e <=? 1024 - 53) with true by (symmetry; apply Z.leb_le; lia).
  reflexivity.
Qed.

(* float64(n) for 0 < n < 2^53 is exact *)
Lemma float64_of_int_exact (n : Z) :
  0 < n < 2 ^ 53 ->
  exists mx k, 0 <= k <= 52 /\ Zpos mx = n * 2 ^ k /\ 2 ^ 52 <= Zpos mx < 2 ^ 53 /\
               float64_of_int n = S754_finite false mx (- k).
Proof.
  intros [Hpos Hlt]. destruct n as [| p | p]; try lia.
  unfold float64_of_int, binary_normalize, binary_round.
  pose proof (digits2_pos_bounds p) as [Plo Phi].
  set (d := Zpos (digits2_pos p)) in *.
  assert (Hd : 1 <= d <= 53).
  { split; [subst d; lia|].
    assert (d - 1 < 53) by (apply (Z.pow_lt_mono_r_iff 2); lia). lia. }
  rewrite fexp64. unfold shl_align.
  replace (Z.max (d + 0 - 53) (-1074)) with (d - 53) by lia. rewrite Z.sub_0_r.
  destruct (Z.eq_dec d 53) as [E|NE].
  - replace (d - 53) with 0 by lia. cbv iota beta.
    exists p, 0. rewrite E in Plo, Phi.
    repeat split; try lia.
    apply binary_round_aux_53; [|lia].
    apply Zdigits2_unique; [lia|]. split; [exact Plo | exact Phi].
  - remember (d - 53) as z eqn:Hz. destruct z as [| q | q]; try lia.
    assert (Hq : Zpos q = 53 - d) by lia.
    assert (Hm : Zpos (Pos.iter xO p q) = Zpos p * 2 ^ Zpos q).
    { clear. induction q using Pos.peano_ind.
      - cbn. lia.
      - rewrite Pos.iter_succ, Pos2Z.inj_succ, Z.pow_succ_r by lia.
        rewrite Pos2Z.inj_xO, IHq. lia. }
    assert (Hb : 2 ^ 52 <= Zpos (Pos.iter xO p q) < 2 ^ 53).
    { rewrite Hm, Hq.
      assert (E52 : 2 ^ 52 = 2 ^ (d - 1) * 2 ^ (53 - d))
        by (rewrite <- Z.pow_add_r by lia; f_equal; lia).
      assert (E53 : 2 ^ 53 = 2 ^ d * 2 ^ (53 - d))
        by (rewrite <- Z.pow_add_r by lia; f_equal; lia).
      assert (0 < 2 ^ (53 - d)) by (apply Z.pow_pos_nonneg; lia).
      rewrite E52, E53.
      split; [apply Z.mul_le_mono_nonneg_r|apply Z.mul_lt_mono_pos_r]; lia. }
    exists (Pos.iter xO p q), (Zpos q). repeat split; try lia.
    rewrite binary_round_aux_53; [reflexivity| |lia].
    apply Zdigits2_unique; [lia|]. exact Hb.
Qed.

Lemma div_eucl_pair (a b : Z) : Z.div_eucl a b = (a / b, a mod b).
Proof. unfold Z.div, Z.modulo. destruct (Z.div_eucl a b); reflexivity. Qed.

Lemma float64_of_int_3 : float64_of_int 3 = S754_finite false three64 (-51).
Proof. reflexivity. Qed.


Lemma loc_of_shr_record_of_loc m l : loc_of_shr_record (shr_record_of_loc m l) = l.
Proof. destruct l as [|[]]; reflexivity. Qed.

Lemma shr_1_of_loc (q : Z) (l : location) :
  0 < q ->
  shr_m (shr_1 (shr_record_of_loc q l)) = q / 2 /\
  loc_of_shr_record (shr_1 (shr_record_of_loc q l)) = sticky q l.
Proof.
  intros Hq. destruct q as [| p | p]; try lia.
  destruct p as [p | p |]; destruct l as [|[]]; cbn - [Z.div]; split;
    try reflexivity; zdiv.
Qed.

Lemma finite_of_mantissa (s : bool) (M e : Z) :
  2 ^ 52 <= M < 2 ^ 53 -> -1074 <= e <= 971 ->
  exists Mp, Zpos Mp = M /\
    (let '(mrs, e') := shr_fexp 53 1024 M e loc_Exact in
     match shr_m mrs with
     | Z0 => S754_zero s
     | Zpos m => if e' <=? 1024 - 53 then S754_finite s m e' else S754_infinity s
     | Zneg _ => S754_nan
     end) = S754_finite s Mp e.
Proof.
  intros HM He. rewrite shr_fexp_53; [| apply Zdigits2_unique; lia | lia].
  cbn [shr_record_of_loc shr_m].
  destruct M as [| Mp | Mp]; try lia. exists Mp. split; [reflexivity|].
  replace (e <=? 1024 - 53) with true by (symmetry; apply Z.leb_le; lia).
  reflexivity.
Qed.

Lemma binary_round_aux_keep (s : bool) (q e : Z) (l : location) :
  2 ^ 52 <= q < 2 ^ 53 -> -1074 <= e <= 971 ->
  2 ^ 52 <= round_nearest_even q l < 2 ^ 53 ->
  exists Mp, Zpos Mp = round_nearest_even q l /\
    binary_round_aux 53 1024 s q e l = S754_finite s Mp e.
Proof.
  intros Hq He HM. unfold binary_round_aux.
  rewrite shr_fexp_53; [| apply Zdigits2_unique; lia | lia].
  rewrite shr_m_of_loc, loc_of_shr_record_of_loc.
  apply finite_of_mantissa; assumption.
Qed.

Lemma binary_round_aux_shift (s : bool) (q e : Z) (l : location) :
  2 ^ 53 <= q < 2 ^ 54 -> -1075 <= e <= 970 ->
  2 ^ 52 <= round_nearest_even (q / 2) (sticky q l) < 2 ^ 53 ->
  exists Mp, Zpos Mp = round_nearest_even (q / 2) (sticky q l) /\
    binary_round_aux 53 1024 s q e l = S754_finite s Mp (e + 1).
Proof.
  intros Hq He HM. unfold binary_round_aux.
  rewrite shr_fexp_54; [| apply Zdigits2_unique; lia | lia].
  destruct (shr_1_of_loc q l) as [-> ->]; [lia|].
  apply finite_of_mantissa; [assumption | lia].
Qed.

Lemma float64_div_3 (mx : positive) (k n : Z) :
  0 <= k <= 52 -> Zpos mx = n * 2 ^ k -> 2 ^ 52 <= Zpos mx < 2 ^ 53 ->
  exists M t, 1 <= t <= 54 /\
    float64_div (S754_finite false mx (- k)) (S754_finite false three64 (-51))
      = S754_finite false M (- t) /\
    -1 <= 3 * Zpos M - 2 ^ t * n <= 1.
Proof.
  intros Hk Hmx Hb.
  unfold float64_div, SFdiv, SFdiv_core_binary.
  rewrite (Zdigits2_unique (Zpos mx) 53) by lia.
  change (Zdigits2 (Zpos three64)) with 53.
  rewrite fexp64.
  replace (Z.min (Z.max (53 + - k - (53 + -51) - 53) (-1074)) (- k - -51)) with (- k - 2) by lia.
  replace (- k - -51 - (- k - 2)) with 53 by lia.
  cbv zeta iota. rewrite div_eucl_pair. cbv iota beta.
  change (xorb false false) with false.
  rewrite Z.shiftl_mul_pow2 by lia.
  unfold new_location. change (Z.even (Zpos three64)) with true. cbv iota.
  unfold new_location_even.
  set (q := Zpos mx * 2 ^ 53 / Zpos three64).
  set (r := (Zpos mx * 2 ^ 53) mod Zpos three64).
  assert (Hqr : Zpos mx * 2 ^ 53 = Zpos three64 * q + r /\ 0 <= r < Zpos three64)
    by (subst q r; unfold three64; zdiv).
  clearbody q r. destruct Hqr as [Hqr Hr]. unfold three64 in *.
  assert (Hr' : exists r', r = 2 ^ 51 * r' /\ 0 <= r' <= 2 /\ 4 * Zpos mx = 3 * q + r')
    by (exists (4 * Zpos mx - 3 * q); lia).
  destruct Hr' as (r' & -> & Hr' & Hq).
  assert (Hl : (if 2 ^ 51 * r' =? 0 then loc_Exact
                else loc_Inexact (2 * (2 ^ 51 * r') ?= 6755399441055744))
               = match r' with 0 => loc_Exact | 1 => loc_Inexact Lt | _ => loc_Inexact Gt end).
  { assert (C : r' = 0 \/ r' = 1 \/ r' = 2) by lia.
    destruct C as [-> | [-> | ->]]; reflexivity. }
  rewrite Hl; clear Hl.
  assert (E4 : 2 ^ (k + 2) * n = 4 * Zpos mx)
    by (rewrite Z.pow_add_r by lia; lia).
  assert (E2 : 2 ^ (k + 1) * n = 2 * Zpos mx)
    by (rewrite Z.pow_add_r by lia; lia).
  destruct (Z_lt_le_dec q (2 ^ 53)) as [Hsmall | Hbig].
  - destruct (binary_round_aux_keep false q (- k - 2)
               match r' with 0 => loc_Exact | 1 => loc_Inexact Lt | _ => loc_Inexact Gt end)
      as (Mp & HMp & Hres).
    + lia.
    + lia.
    + assert (C : r' = 0 \/ r' = 1 \/ r' = 2) by lia.
      destruct C as [-> | [-> | ->]]; cbn [round_nearest_even]; lia.
    + exists Mp, (k + 2). split; [lia|]. split.
      * rewrite Hres. f_equal. lia.
      * rewrite E4, HMp.
        assert (C : r' = 0 \/ r' = 1 \/ r' = 2) by lia.
        destruct C as [-> | [-> | ->]]; cbn [round_nearest_even]; lia.
  - pose proof (Z.div2_odd q) as Hodd. rewrite Z.div2_div in Hodd.
    assert (HM : let M := round_nearest_even (q / 2)
               (sticky q match r' with 0 => loc_Exact | 1 => loc_Inexact Lt | _ => loc_Inexact Gt end) in
             2 ^ 52 <= M < 2 ^ 53 /\ -1 <= 3 * M - 2 * Zpos mx <= 1).
    { unfold sticky.
      assert (C : r' = 0 \/ r' = 1 \/ r' = 2) by lia.
      destruct (Z.odd q); cbn [Z.b2z] in Hodd;
        destruct C as [-> | [-> | ->]]; cbn [round_nearest_even]; cbv zeta; lia. }
    cbv zeta in HM. destruct HM as [HM1 HM2].
    destruct (binary_round_aux_shift false q (- k - 2)
               match r' with 0 => loc_Exact | 1 => loc_Inexact Lt | _ => loc_Inexact Gt end)
      as (Mp & HMp & Hres); [lia | lia | exact HM1 |].
    exists Mp, (k + 1). split; [lia|]. split.
    + rewrite Hres. f_equal. lia.
    + rewrite E2, HMp. exact HM2.
Qed.

Lemma ceil_of_rounded (M : positive) (t n : Z) :
  1 <= t <= 54 -> 0 < n < 2 ^ 53 -> -1 <= 3 * Zpos M - 2 ^ t * n <= 1 ->
  int_of_float64 (math.Ceil (S754_finite false M (- t))) = (n + 2) / 3.
Proof.
  intros Ht Hn HM.
  assert (HT : 2 <= 2 ^ t) by (change 2 with (2 ^ 1) at 1; apply Z.pow_le_mono_r; lia).
  destruct t as [| tp | tp]; try lia.
  unfold math.Ceil. change (- Zpos tp) with (Zneg tp). cbv beta iota zeta.
  set (T := 2 ^ Zpos tp) in *.
  set (c := - (- Zpos M / T)).
  assert (Hc : c = (n + 2) / 3).
  { subst c.
    assert (Hj : n = 3 * ((n + 2) / 3) - (2 - (n + 2) mod 3) /\ 0 <= (n + 2) mod 3 < 3) by zdiv.
    set (j := (n + 2) / 3) in *. set (b := (n + 2) mod 3) in *. clearbody j b.
    destruct Hj as [Hj Hb].
    assert (Hjb : T * j - T < Zpos M <= T * j) by nia.
    assert (HD : - Zpos M = T * (- Zpos M / T) + (- Zpos M) mod T /\ 0 <= (- Zpos M) mod T < T)
      by (split; [apply Z.div_mod; lia | apply Z.mod_pos_bound; lia]).
    nia. }
  change (- (- Zpos M / T)) with c. rewrite Hc. clear c Hc.
  assert (Hj : 0 < (n + 2) / 3 < 2 ^ 53) by zdiv.
  set (j := (n + 2) / 3) in *. clearbody j.
  destruct (float64_of_int_exact j Hj) as (mx & k & Hk & Hmx & Hb & Hf).
  unfold float64_of_int in Hf.
  destruct j as [| jp | jp]; try lia.
  rewrite Hf. unfold int_of_float64.
  assert (Ha : match - k with
               | Zneg kp => Zpos mx / 2 ^ Zpos kp
               | _ => Zpos mx * 2 ^ (- k)
               end = Zpos jp).
  { destruct k as [| kp | kp]; try lia.
    - change (- 0) with 0. cbv iota. change (2 ^ 0) with 1 in *. lia.
    - change (- Zpos kp) with (Zneg kp). cbv iota.
      rewrite Hmx. apply Z.div_mul. apply Z.pow_nonzero; lia. }
  rewrite Ha.
  replace (MinInt64 <=? Zpos jp) with true
    by (symmetry; apply Z.leb_le; unfold MinInt64; lia).
  replace (Zpos jp <=? MaxInt64) with true
    by (symmetry; apply Z.leb_le; unfold MaxInt64; lia).
  reflexivity.
Qed.

Lemma totalPages_exact (n : Z) :
  0 <= n < 2 ^ 53 ->
  int_of_float64 (math.Ceil (float64_div (float64_of_int n) (float64_of_int 3)))
  = (n + 2) / 3.
Proof.
  intros Hn. destruct (Z.eq_dec n 0) as [-> | Hnz]; [reflexivity|].
  rewrite float64_of_int_3.
  destruct (float64_of_int_exact n) as (mx & k & Hk & Hmx & Hb & ->); [lia|].
  destruct (float64_div_3 mx k n Hk Hmx Hb) as (M & t & Ht & -> & HM).
  apply ceil_of_rounded with (t := t); [assumption | lia | assumption].
Qed.

(* ================================================================== *)
(** * The paginator                                                    *)
(* ================================================================== *)

Lemma wrap64_id (z : Z) : MinInt64 <= z <= MaxInt64 -> wrap64 z = z.
Proof. unfold wrap64, MinInt64, MaxInt64. intros Hz. zdiv. Qed.

(** Without overflow the bounds are the two offsets, each clamped to the
    length. *)
Lemma sliceBounds_exact (n p s : Z) :
  0 <= n -> 1 <= p -> 1 <= s -> p * s <= MaxInt64 ->
  sliceBounds n p s = (Z.min ((p - 1) * s) n, Z.min (p * s) n).
Proof.
  intros Hn Hp Hs Hmax. unfold sliceBounds.
  assert (H0 : 0 <= (p - 1) * s) by nia.
  assert (H1 : (p - 1) * s + s = p * s) by ring.
  assert (H2 : p <= p * s) by nia.
  assert (HM : MaxInt64 = 2 ^ 63 - 1) by reflexivity.
  assert (Hm : MinInt64 = - 2 ^ 63) by reflexivity.
  rewrite (wrap64_id (p - 1)) by lia.
  rewrite (wrap64_id ((p - 1) * s)) by lia.
  rewrite H1, (wrap64_id (p * s)) by lia.
  destruct (Z.gtb_spec ((p - 1) * s) n), (Z.gtb_spec (p * s) n); f_equal; lia.
Qed.

Lemma sliceBounds_in_bounds (n p s : Z) :
  0 <= n -> 1 <= p -> 1 <= s -> p * s <= MaxInt64 ->
  0 <= fst (sliceBounds n p s) <= snd (sliceBounds n p s)
  /\ snd (sliceBounds n p s) <= n.
Proof.
  intros Hn Hp Hs Hmax. rewrite sliceBounds_exact by assumption.
  cbn [fst snd]. assert (0 <= (p - 1) * s <= p * s) by nia. lia.
Qed.

Lemma len_nonneg {A : Type} (l : list A) : 0 <= len l.
Proof. unfold len. lia. Qed.

Lemma window_from_take_drop {A : Type} (l : list A) (i lo hi : Z) :
  window_from i l lo hi
  = take (Z.to_nat (hi - Z.max lo i)) (drop (Z.to_nat (lo - i)) l).
Proof.
  revert i. induction l as [| x l IH]; intros i; cbn [window_from].
  - by rewrite drop_nil, take_nil.
  - rewrite IH. destruct (Z.leb_spec lo i) as [Hlo | Hlo]; cbn [andb].
    + replace (Z.to_nat (lo - i)) with 0%nat by lia.
      replace (Z.to_nat (lo - (i + 1))) with 0%nat by lia.
      cbn [drop skipn]. destruct (Z.ltb_spec i hi) as [Hhi | Hhi].
      * replace (Z.to_nat (hi - Z.max lo i)) with (Datatypes.S (Z.to_nat (hi - Z.max lo (i + 1)))) by lia.
        reflexivity.
      * replace (Z.to_nat (hi - Z.max lo i)) with 0%nat by lia.
        replace (Z.to_nat (hi - Z.max lo (i + 1))) with 0%nat by lia.
        reflexivity.
    + replace (Z.to_nat (lo - i)) with (Datatypes.S (Z.to_nat (lo - (i + 1)))) by lia.
      cbn [drop skipn]. do 2 f_equal. lia.
Qed.

(** The window by index is what slicing takes. *)
Lemma window_take_drop {A : Type} (l : list A) (lo hi : Z) :
  0 <= lo ->
  window l lo hi = take (Z.to_nat (hi - lo)) (drop (Z.to_nat lo) l).
Proof.
  intros Hlo. unfold window. rewrite window_from_take_drop.
  do 2 f_equal; lia.
Qed.

(** Clamping the two offsets to the length does not change the window. *)
Lemma window_clamped {A : Type} (l : list A) (lo hi : Z) :
  0 <= lo <= hi ->
  window l (Z.min lo (len l)) (Z.min hi (len l)) = window l lo hi.
Proof.
  intros Hb. pose proof (len_nonneg l) as Hn. unfold len in *.
  rewrite !window_take_drop by lia.
  destruct (Z_lt_le_dec lo (Z.of_nat (length l))) as [Hlt | Hge].
  - rewrite (Z.min_l lo) by lia.
    destruct (Z_lt_le_dec hi (Z.of_nat (length l))) as [Hlt' | Hge'].
    + by rewrite (Z.min_l hi) by lia.
    + rewrite (Z.min_r hi) by lia.
      rewrite !take_ge; [reflexivity | |]; rewrite length_drop; lia.
  - rewrite !drop_ge by lia. by rewrite !take_nil.
Qed.

Lemma go_slice_window {A : Type} (l : list A) (lo hi : Z) :
  0 <= lo <= hi -> hi <= len l ->
  go_slice l lo hi = Ret (window l lo hi).
Proof.
  intros Hb Hhi. unfold go_slice.
  replace (0 <=? lo) with true by (symmetry; apply Z.leb_le; lia).
  replace (lo <=? hi) with true by (symmetry; apply Z.leb_le; lia).
  replace (hi <=? len l) with true by (symmetry; apply Z.leb_le; lia).
  cbn [andb]. by rewrite window_take_drop by lia.
Qed.

(** Outside the bounds the slice expression panics. *)
Lemma go_slice_negative {A : Type} (l : list A) (lo hi : Z) :
  lo < 0 -> go_slice l lo hi = Panic slice_bounds_out_of_range.
Proof.
  intros Hlo. unfold go_slice.
  replace (0 <=? lo) with false by (symmetry; apply Z.leb_gt; lia).
  reflexivity.
Qed.

(** A page in range is served: its slice is the window of the page. *)
Lemma paginate_returns (movies : list Movie) (p : Z) :
  page_in_range p ->
  exists total,
    paginateMovies movies p 3 = Ret (window movies ((p - 1) * 3) (p * 3), total).
Proof.
  intros [Hp Hmax]. pose proof (len_nonneg movies) as Hn.
  unfold paginateMovies. rewrite sliceBounds_exact by lia.
  rewrite go_slice_window by (unfold len in *; lia).
  rewrite window_clamped by lia.
  eexists. reflexivity.
Qed.

(** With a length below [2^53] the page count is the exact ceiling. *)
Lemma paginate_in_range (movies : list Movie) (p : Z) :
  page_in_range p -> len movies < 2 ^ 53 ->
  paginateMovies movies p 3
  = Ret (window movies ((p - 1) * 3) (p * 3), (len movies + 2) / 3).
Proof.
  intros [Hp Hmax] Hlen. pose proof (len_nonneg movies) as Hn.
  unfold paginateMovies. rewrite sliceBounds_exact by lia.
  rewrite go_slice_window by (unfold len in *; lia).
  rewrite window_clamped by lia.
  rewrite totalPages_exact by lia. reflexivity.
Qed.

Lemma ceiling_of_thirds (n : Z) : is_ceiling ((n + 2) / 3) n 3.
Proof. unfold is_ceiling. zdiv. Qed.

Lemma page_numbers_succ (k : nat) :
  page_numbers (Z.of_nat (Datatypes.S k)) = page_numbers (Z.of_nat k) ++ [Z.of_nat k + 1].
Proof.
  unfold page_numbers. rewrite !Nat2Z.id, seq_S, map_app. cbn [map].
  do 2 f_equal. lia.
Qed.

(** The first [k] pages, one after the other, are the first [3 k]
    elements. *)
Lemma pages_concat_take {A : Type} (l : list A) (k : nat) :
  concat (map (fun p => window l ((p - 1) * 3) (p * 3)) (page_numbers (Z.of_nat k)))
  = take (3 * k) l.
Proof.
  induction k as [| k IH].
  - reflexivity.
  - rewrite page_numbers_succ, map_app, concat_app, IH. cbn [map concat].
    rewrite app_nil_r, window_take_drop by lia.
    replace (Z.to_nat ((Z.of_nat k + 1) * 3 - (Z.of_nat k + 1 - 1) * 3)) with 3%nat by lia.
    replace (Z.to_nat ((Z.of_nat k + 1 - 1) * 3)) with (3 * k)%nat by lia.
    rewrite take_take_drop. f_equal. lia.
Qed.

Lemma pages_concat_all {A : Type} (l : list A) :
  concat (map (fun p => window l ((p - 1) * 3) (p * 3)) (page_numbers ((len l + 2) / 3)))
  = l.
Proof.
  pose proof (len_nonneg l) as Hn.
  assert (Hk : 0 <= (len l + 2) / 3) by zdiv.
  rewrite <- (Z2Nat.id _ Hk), pages_concat_take.
  apply take_ge. unfold len in *. zdiv.
Qed.

Lemma served_windows (movies : list Movie) (ps : list Z) :
  Forall page_in_range ps ->
  served movies ps = Ret (map (fun p => window movies ((p - 1) * 3) (p * 3)) ps).
Proof.
  induction 1 as [| p ps Hp _ IH]; [reflexivity|].
  cbn [served map]. destruct (paginate_returns movies p Hp) as [total ->].
  cbn [obind fst]. rewrite IH. reflexivity.
Qed.

Lemma page_numbers_range (total : Z) :
  Forall (fun p => 1 <= p <= total) (page_numbers total).
Proof.
  unfold page_numbers. apply List.Forall_forall. intros p Hin.
  apply in_map_iff in Hin as (k & <- & Hk). apply in_seq in Hk. lia.
Qed.

(** C1. For every collection of movies of a length below 2^53 (every slice
    a Go process can hold; the order of the movies plays no role, so the
    collections sorted by id are covered, and so are the non-empty ones),
    with page size 3: the page count [paginateMovies] reports is the
    ceiling of N/3, the slice it returns for each page number from 1 to
    that count is the window from offset (page - 1) * 3 through page * 3
    clipped to the collection, and these slices, concatenated in the order
    of the pages, are the collection itself. *)
Theorem C1_pages_partition_the_collection (movies : list Movie) :
  len movies < 2 ^ 53 ->
  let total := (len movies + 2) / 3 in
  is_ceiling total (len movies) 3 /\
  (forall p, 1 <= p <= total ->
     paginateMovies movies p 3 = Ret (window movies ((p - 1) * 3) (p * 3), total)) /\
  (exists slices,
     served movies (page_numbers total) = Ret slices /\ concat slices = movies).
Proof.
  intros Hlen total. pose proof (len_nonneg movies) as Hn.
  assert (Hrange : forall p, 1 <= p <= total -> page_in_range p).
  { intros p Hp. unfold page_in_range, MaxInt64. subst total. split; [lia | zdiv]. }
  split; [apply ceiling_of_thirds|]. split.
  - intros p Hp. apply paginate_in_range; auto.
  - eexists. split.
    + apply served_windows.
      eapply Forall_impl; [apply page_numbers_range | exact Hrange].
    + apply pages_concat_all.
Qed.

Lemma C1_witness :
  len InMemory.seven < 2 ^ 53 /\
  (let total := (len InMemory.seven + 2) / 3 in
   is_ceiling total (len InMemory.seven) 3 /\
   (forall p, 1 <= p <= total ->
      paginateMovies InMemory.seven p 3
      = Ret (window InMemory.seven ((p - 1) * 3) (p * 3), total)) /\
   (exists slices,
      served InMemory.seven (page_numbers total) = Ret slices
      /\ concat slices = InMemory.seven)).
Proof.
  assert (H : len InMemory.seven < 2 ^ 53) by (vm_compute; reflexivity).
  split; [exact H | exact (C1_pages_partition_the_collection InMemory.seven H)].
Defined.

(** C5. With page size 3 and a collection of seven movies,
    [paginateMovies] returns the first three movies and a page count of 3
    for page 1, the last movie for page 3 and an empty slice for page 4;
    with the empty collection and page 1 it returns an empty slice and a
    page count of 0. *)
Theorem C5_paginate_seven_and_none (m1 m2 m3 m4 m5 m6 m7 : Movie) :
  paginateMovies [m1; m2; m3; m4; m5; m6; m7] 1 3 = Ret ([m1; m2; m3], 3) /\
  paginateMovies [m1; m2; m3; m4; m5; m6; m7] 3 3 = Ret ([m7], 3) /\
  paginateMovies [m1; m2; m3; m4; m5; m6; m7] 4 3 = Ret ([], 3) /\
  paginateMovies [] 1 3 = Ret ([], 0).
Proof. repeat split; vm_compute; reflexivity. Qed.

(* ================================================================== *)
(** * Sorting by id                                                    *)
(* ================================================================== *)

Section SliceFacts.
Context {A : Type} (less : A -> A -> bool).

Lemma place_Permutation (x : A) (l : list A) :
  Permutation (sort.place less x l) (x :: l).
Proof.
  induction l as [| y l IH]; cbn [sort.place]; [reflexivity|].
  destruct (less x y); [reflexivity|].
  rewrite IH. apply perm_swap.
Qed.

Lemma Slice_Permutation (l : list A) : Permutation (sort.Slice less l) l.
Proof.
  induction l as [| x l IH]; [reflexivity|].
  unfold sort.Slice in *. cbn [foldr].
  rewrite place_Permutation. by constructor.
Qed.

Lemma Slice_length (l : list A) : length (sort.Slice less l) = length l.
Proof. apply Permutation_length, Slice_Permutation. Qed.

(** When [less] is asymmetric, no element of the result is [less] than
    the one before it. *)
Hypothesis less_asym : forall a b, less a b = true -> less b a = false.

Lemma place_Sorted (x : A) (l : list A) :
  Sorted (fun a b => less b a = false) l ->
  Sorted (fun a b => less b a = false) (sort.place less x l).
Proof.
  induction 1 as [| y l Hl IH Hy]; cbn [sort.place].
  - repeat constructor.
  - destruct (less x y) eqn:Hxy.
    + constructor; [by constructor | constructor; by apply less_asym].
    + constructor; [exact IH|].
      destruct Hy as [| z l' Hz]; cbn [sort.place].
      * by repeat constructor.
      * destruct (less x z); by constructor.
Qed.

Lemma Slice_Sorted (l : list A) :
  Sorted (fun a b => less b a = false) (sort.Slice less l).
Proof.
  induction l as [| x l IH]; [constructor|].
  unfold sort.Slice in *. cbn [foldr]. by apply place_Sorted.
Qed.

End SliceFacts.

Lemma ltb_asym (a b : string) : String.ltb a b = true -> String.ltb b a = false.
Proof.
  unfold String.ltb. rewrite (String.compare_antisym a b).
  destruct (String.compare b a); cbn; congruence.
Qed.

Lemma movies_of_items_length (items : list dynamodb.Item) :
  forallb well_formed_item items = true ->
  length (movies_of_items items) = length items.
Proof.
  induction items as [| item items IH]; [reflexivity|].
  cbn [forallb movies_of_items length]. intros Hwf.
  apply andb_prop in Hwf as [Hitem Hrest]. unfold well_formed_item in Hitem.
  destruct (movie_of_item item); [| discriminate].
  cbn [length]. by rewrite IH.
Qed.

(** The collection of a list request holds one movie per scanned item, in
    ascending order of the ids. *)
Lemma sorted_collection_length (items : list dynamodb.Item) :
  forallb well_formed_item items = true ->
  len (sorted_collection items) = len items.
Proof.
  intros Hwf. unfold len, sorted_collection.
  by rewrite Slice_length, movies_of_items_length.
Qed.

Lemma sorted_collection_Permutation (items : list dynamodb.Item) :
  Permutation (sorted_collection items) (movies_of_items items).
Proof. apply Slice_Permutation. Qed.

Lemma sorted_collection_Sorted (items : list dynamodb.Item) :
  Sorted (fun a b => String.ltb (ID b) (ID a) = false) (sorted_collection items).
Proof.
  unfold sorted_collection.
  apply (Slice_Sorted (fun a b => String.ltb (ID a) (ID b))).
  intros a b. apply ltb_asym.
Qed.

(* ================================================================== *)
(** * The operations of the router                                     *)
(* ================================================================== *)

Section Operations.
Context {W : Type} `{!dynamodb.API W} `{!Environ} `{!JSONCodec}.

Local Abbreviation Request := events.APIGatewayProxyRequest.

Lemma range_Items_well_formed (items : list dynamodb.Item) (acc : list Movie) :
  forallb well_formed_item items = true ->
  range_Items items acc = Ret (acc ++ movies_of_items items).
Proof.
  revert acc. induction items as [| item items IH]; intros acc Hwf.
  - cbn. by rewrite app_nil_r.
  - cbn [forallb] in Hwf. apply andb_prop in Hwf as [Hitem Hrest].
    unfold well_formed_item in Hitem. cbn [range_Items movies_of_items].
    unfold movie_of_item in *.
    destruct (dynamodb.deref_S item "ID") as [id | e]; cbn [obind] in *; [| discriminate].
    destruct (dynamodb.deref_S item "Name") as [name | e]; cbn [obind] in *; [| discriminate].
    rewrite IH by assumption. by rewrite <- app_assoc.
Qed.

Lemma findAllMovies_scan_failed (req : Request) (st : St W) (msg : string) (w' : W) :
  let params := {| dynamodb.scan_TableName := Getenv "TABLE_NAME" |} in
  dynamodb.Scan params (world st) = (Err msg, w') ->
  findAllMovies req st
  = (Ret (error_response 500 "Error while scanning DynamoDB"),
     sent st (dynamodb.CallScan params) w').
Proof.
  intros params Hscan. unfold findAllMovies, bind, call. fold params.
  rewrite Hscan. reflexivity.
Qed.

Lemma findAllMovies_scanned (req : Request) (st : St W)
    (out : dynamodb.ScanOutput) (w' : W) :
  let params := {| dynamodb.scan_TableName := Getenv "TABLE_NAME" |} in
  let movies := sorted_collection (dynamodb.Items out) in
  let st' := sent st (dynamodb.CallScan params) w' in
  dynamodb.Scan params (world st) = (Ok out, w') ->
  forallb well_formed_item (dynamodb.Items out) = true ->
  findAllMovies req st
  = match strconv.Atoi (pageParam req) with
    | None =>
        (Ret (error_response 500 "Only numbers accepted in page query string"), st')
    | Some p =>
        match paginateMovies movies p 3 with
        | Panic e => (Panic e, st')
        | Ret (paginated, total) =>
            if p >? total
            then (Ret (error_response 400 "The requested page exceeds the total of pages"), st')
            else
              match json.Marshal_PaginatedMovie
                      {| Movie_ := paginated; ActualPage := p; TotalPages := total |} with
              | Ok data => (Ret (data_response data), st')
              | Err _ => (Ret (error_response 500 "Error while decoding to string value"), st')
              end
        end
    end.
Proof.
  intros params movies st' Hscan Hwf.
  unfold findAllMovies, bind, call, lift. fold params.
  rewrite Hscan. cbv beta iota zeta.
  rewrite (range_Items_well_formed _ [] Hwf). rewrite app_nil_l.
  fold (sorted_collection (dynamodb.Items out)). fold movies. fold st'.
  destruct (strconv.Atoi (pageParam req)) as [p |]; [| reflexivity].
  destruct (paginateMovies movies p 3) as [[paginated total] | e]; [| reflexivity].
  cbn [fst snd]. destruct (p >? total); reflexivity.
Qed.

(** ** The lookup of one movie *)

Lemma findOneMovie_store_failed (req : Request) (st : St W) (msg : string) (w' : W) :
  let params := findOneParams (go_index (events.PathParameters req) "id") in
  dynamodb.GetItem params (world st) = (Err msg, w') ->
  findOneMovie req st
  = (Ret (error_response 500 "Error while getting item DynamoDB"),
     sent st (dynamodb.CallGetItem params) w').
Proof.
  intros params Hget. unfold findOneMovie, bind, call. fold params.
  rewrite Hget. reflexivity.
Qed.

Lemma findOneMovie_not_found (req : Request) (st : St W)
    (out : dynamodb.GetItemOutput) (w' : W) :
  let params := findOneParams (go_index (events.PathParameters req) "id") in
  dynamodb.GetItem params (world st) = (Ok out, w') ->
  size (dynamodb.Item_ out) = 0%nat ->
  findOneMovie req st
  = (Ret (error_response 404 "Movie not found with the ID provided"),
     sent st (dynamodb.CallGetItem params) w').
Proof.
  intros params Hget Hsize. unfold findOneMovie, bind, call. fold params.
  rewrite Hget. cbv beta iota zeta. rewrite Hsize. reflexivity.
Qed.

Lemma well_formed_item_inv (item : dynamodb.Item) :
  well_formed_item item = true ->
  exists id name,
    dynamodb.deref_S item "ID" = Ret id /\ dynamodb.deref_S item "Name" = Ret name
    /\ movie_of_item item = Ret {| ID := id; Name := name |}
    /\ size item <> 0%nat.
Proof.
  unfold well_formed_item, movie_of_item. intros Hwf.
  destruct (dynamodb.deref_S item "ID") as [id | e] eqn:Hid; cbn [obind] in *; [| discriminate].
  destruct (dynamodb.deref_S item "Name") as [name | e] eqn:Hname; cbn [obind] in *; [| discriminate].
  exists id, name. repeat split; try reflexivity.
  intros Hsize. apply map_size_empty_iff in Hsize. subst item.
  unfold dynamodb.deref_S in Hid. rewrite lookup_empty in Hid. discriminate.
Qed.

Lemma findOneMovie_found (req : Request) (st : St W)
    (out : dynamodb.GetItemOutput) (w' : W) (m : Movie) :
  let params := findOneParams (go_index (events.PathParameters req) "id") in
  dynamodb.GetItem params (world st) = (Ok out, w') ->
  movie_of_item (dynamodb.Item_ out) = Ret m ->
  findOneMovie req st
  = (Ret (data_response (json.object_of_Movie m)),
     sent st (dynamodb.CallGetItem params) w').
Proof.
  intros params Hget Hm.
  assert (Hwf : well_formed_item (dynamodb.Item_ out) = true)
    by (unfold well_formed_item; by rewrite Hm).
  destruct (well_formed_item_inv _ Hwf) as (id & name & Hid & Hname & Hm' & Hsize).
  rewrite Hm in Hm'. injection Hm' as ->.
  unfold findOneMovie, bind, call, lift. fold params.
  rewrite Hget. cbv beta iota zeta.
  destruct (Nat.eqb_spec (size (dynamodb.Item_ out)) 0) as [E | _]; [contradiction|].
  rewrite Hid. cbv beta iota. rewrite Hname. reflexivity.
Qed.

(** ** The three writes *)

Lemma insertMovie_invalid_payload (req : Request) (st : St W) (msg : string) :
  Unmarshal (events.Body req) = Err msg ->
  insertMovie req st = (Ret (error_response 400 "Invalid payload"), st).
Proof. intros Hbody. unfold insertMovie. rewrite Hbody. reflexivity. Qed.

Lemma updateMovie_invalid_payload (req : Request) (st : St W) (msg : string) :
  Unmarshal (events.Body req) = Err msg ->
  updateMovie req st = (Ret (error_response 400 "Invalid payload"), st).
Proof. intros Hbody. unfold updateMovie. rewrite Hbody. reflexivity. Qed.

Lemma deleteMovie_invalid_payload (req : Request) (st : St W) (msg : string) :
  Unmarshal (events.Body req) = Err msg ->
  deleteMovie req st = (Ret (error_response 400 "Invalid payload"), st).
Proof. intros Hbody. unfold deleteMovie. rewrite Hbody. reflexivity. Qed.

Lemma insertMovie_stored (req : Request) (st : St W) (movie : Movie)
    (r : result unit) (w' : W) :
  Unmarshal (events.Body req) = Ok movie ->
  dynamodb.PutItem (insertParams movie) (world st) = (r, w') ->
  insertMovie req st
  = (Ret match r with
         | Ok _ => success_response "Movie inserted successfully"
         | Err _ => error_response 500 "Error inserting movie into DynamoDB"
         end,
     sent st (dynamodb.CallPutItem (insertParams movie)) w').
Proof.
  intros Hbody Hput. unfold insertMovie, bind, call. rewrite Hbody.
  cbv beta iota zeta. rewrite Hput. destruct r; reflexivity.
Qed.

Lemma updateMovie_stored (req : Request) (st : St W) (movie : Movie)
    (r : result unit) (w' : W) :
  Unmarshal (events.Body req) = Ok movie ->
  dynamodb.UpdateItem (updateParams movie) (world st) = (r, w') ->
  updateMovie req st
  = (Ret match r with
         | Ok _ => success_response "Movie updated successfully"
         | Err _ => error_response 500 "Error updating movie from DynamoDB"
         end,
     sent st (dynamodb.CallUpdateItem (updateParams movie)) w').
Proof.
  intros Hbody Hupd. unfold updateMovie, bind, call. rewrite Hbody.
  cbv beta iota zeta. rewrite Hupd. destruct r; reflexivity.
Qed.

Lemma deleteMovie_stored (req : Request) (st : St W) (movie : Movie)
    (r : result unit) (w' : W) :
  Unmarshal (events.Body req) = Ok movie ->
  dynamodb.DeleteItem (deleteParams movie) (world st) = (r, w') ->
  deleteMovie req st
  = (Ret match r with
         | Ok _ => success_response "Movie deleted successfully"
         | Err _ => error_response 500 "Error deleting movie into DynamoDB"
         end,
     sent st (dynamodb.CallDeleteItem (deleteParams movie)) w').
Proof.
  intros Hbody Hdel. unfold deleteMovie, bind, call. rewrite Hbody.
  cbv beta iota zeta. rewrite Hdel. destruct r; reflexivity.
Qed.

(** ** The list operation *)

(** The page parameter: ["1"] when the query has no [page] or an empty
    one, the value itself otherwise. *)
Lemma pageParam_cases (req : Request) :
  (events.QueryStringParameters req !! "page" = None -> pageParam req = "1") /\
  (events.QueryStringParameters req !! "page" = Some "" -> pageParam req = "1") /\
  (forall v, events.QueryStringParameters req !! "page" = Some v -> v <> "" ->
     pageParam req = v).
Proof.
  unfold pageParam, go_index. repeat split.
  - intros ->. reflexivity.
  - intros ->. reflexivity.
  - intros v -> Hv. change (default "" (Some v)) with v.
    destruct (String.eqb_spec v ""); [contradiction | reflexivity].
Qed.

Lemma findAllMovies_page (req : Request) (st : St W)
    (out : dynamodb.ScanOutput) (w' : W) (p : Z) :
  let params := {| dynamodb.scan_TableName := Getenv "TABLE_NAME" |} in
  let movies := sorted_collection (dynamodb.Items out) in
  let total := (len movies + 2) / 3 in
  dynamodb.Scan params (world st) = (Ok out, w') ->
  forallb well_formed_item (dynamodb.Items out) = true ->
  len (dynamodb.Items out) < 2 ^ 53 ->
  strconv.Atoi (pageParam req) = Some p ->
  page_in_range p ->
  findAllMovies req st
  = (Ret (if p >? total
          then error_response 400 "The requested page exceeds the total of pages"
          else data_response (page_json movies p total)),
     sent st (dynamodb.CallScan params) w').
Proof.
  intros params movies total Hscan Hwf Hlen Hp Hrange.
  rewrite (findAllMovies_scanned req st out w' Hscan Hwf). rewrite Hp.
  fold params movies.
  rewrite paginate_in_range;
    [| assumption | subst movies; by rewrite sorted_collection_length].
  fold total. destruct (p >? total); reflexivity.
Qed.

(** ** The claims on the operations *)

(** C2, amended. For every request: GET with no [id] path parameter, or
    with an empty one, is the list operation; GET with a non-empty [id] is
    the get-one operation; POST is the create, PUT the update and DELETE
    the delete operation; any other method is answered with status 405 and
    an error envelope, and the table is not accessed. *)
Theorem C2_dispatch_by_method_and_id (req : Request) :
  (events.HTTPMethod req = "GET" ->
   events.PathParameters req !! "id" = None ->
   handleRequest req = findAllMovies req) /\
  (events.HTTPMethod req = "GET" ->
   events.PathParameters req !! "id" = Some "" ->
   handleRequest req = findAllMovies req) /\
  (events.HTTPMethod req = "GET" ->
   forall id, events.PathParameters req !! "id" = Some id -> id <> "" ->
   handleRequest req = findOneMovie req) /\
  (events.HTTPMethod req = "POST" -> handleRequest req = insertMovie req) /\
  (events.HTTPMethod req = "PUT" -> handleRequest req = updateMovie req) /\
  (events.HTTPMethod req = "DELETE" -> handleRequest req = deleteMovie req) /\
  (events.HTTPMethod req <> "GET" -> events.HTTPMethod req <> "POST" ->
   events.HTTPMethod req <> "PUT" -> events.HTTPMethod req <> "DELETE" ->
   forall st : St W,
     handleRequest req st = (Ret (error_response 405 "Unsupported HTTP method"), st)).
Proof.
  unfold handleRequest, go_index, http.MethodGet, http.MethodPost, http.MethodPut,
    http.MethodDelete.
  repeat split.
  - intros -> ->. reflexivity.
  - intros -> ->. reflexivity.
  - intros -> id -> Hid. change (default "" (Some id)) with id.
    change (String.eqb "GET" "GET") with true. cbv iota.
    destruct (String.eqb_spec id ""); [contradiction | reflexivity].
  - intros ->. reflexivity.
  - intros ->. reflexivity.
  - intros ->. reflexivity.
  - intros Hget Hpost Hput Hdel st.
    destruct (String.eqb_spec (events.HTTPMethod req) "GET"); [contradiction|].
    destruct (String.eqb_spec (events.HTTPMethod req) "POST"); [contradiction|].
    destruct (String.eqb_spec (events.HTTPMethod req) "PUT"); [contradiction|].
    destruct (String.eqb_spec (events.HTTPMethod req) "DELETE"); [contradiction|].
    reflexivity.
Qed.

(** C3. A get-one request whose id is absent from the table (the lookup
    answers with zero attributes): the router's [findOneMovie] returns
    status 404 with the error envelope "Movie not found with the ID
    provided", whereas the single-operation [findOne] has no such check and
    panics on the nil attribute. *)
Theorem C3_findOne_panics_on_a_missing_id (req : Request) (st : St W)
    (out : dynamodb.GetItemOutput) (w' : W) :
  let params := findOneParams (go_index (events.PathParameters req) "id") in
  dynamodb.GetItem params (world st) = (Ok out, w') ->
  size (dynamodb.Item_ out) = 0%nat ->
  findOneMovie req st
  = (Ret (error_response 404 "Movie not found with the ID provided"),
     sent st (dynamodb.CallGetItem params) w')
  /\ FindOne.findOne req st
     = (Panic nil_pointer_dereference, sent st (dynamodb.CallGetItem params) w').
Proof.
  intros params Hget Hsize. split.
  - by apply (findOneMovie_not_found req st out w').
  - unfold FindOne.findOne, bind, call, lift. fold params. rewrite Hget.
    cbv beta iota zeta. apply map_size_empty_iff in Hsize. rewrite Hsize.
    unfold dynamodb.deref_S. rewrite lookup_empty. reflexivity.
Qed.

(** The single-operation [findOne] on an item that is found. *)
Lemma findOne_found (req : Request) (st : St W)
    (out : dynamodb.GetItemOutput) (w' : W) (m : Movie) :
  let params := findOneParams (go_index (events.PathParameters req) "id") in
  dynamodb.GetItem params (world st) = (Ok out, w') ->
  movie_of_item (dynamodb.Item_ out) = Ret m ->
  FindOne.findOne req st
  = (Ret (data_response (json.object_of_Movie m)),
     sent st (dynamodb.CallGetItem params) w').
Proof.
  intros params Hget Hm.
  assert (Hwf : well_formed_item (dynamodb.Item_ out) = true)
    by (unfold well_formed_item; by rewrite Hm).
  destruct (well_formed_item_inv _ Hwf) as (id & name & Hid & Hname & Hm' & _).
  rewrite Hm in Hm'. injection Hm' as ->.
  unfold FindOne.findOne, bind, call, lift. fold params.
  rewrite Hget. cbv beta iota zeta. rewrite Hid. cbv beta iota. rewrite Hname.
  reflexivity.
Qed.

(** C4, amended. A list request whose scan succeeds with well-formed
    items (fewer than 2^53 of them) and whose page parameter parses to a
    page number p with 1 <= p and 3 * p inside the int range: when p
    exceeds the page count, the ceiling of N/3 (so for every such p
    against an empty collection, whose page count is 0), the response is
    status 400 with the error envelope "The requested page exceeds the
    total of pages"; otherwise it is status 200 with the page serialized as
    [{data, actual_page, total_pages}]. *)
Theorem C4_page_served_or_exceeding (req : Request) (st : St W)
    (out : dynamodb.ScanOutput) (w' : W) (p : Z) :
  let params := {| dynamodb.scan_TableName := Getenv "TABLE_NAME" |} in
  let movies := sorted_collection (dynamodb.Items out) in
  let total := (len movies + 2) / 3 in
  dynamodb.Scan params (world st) = (Ok out, w') ->
  forallb well_formed_item (dynamodb.Items out) = true ->
  len (dynamodb.Items out) < 2 ^ 53 ->
  strconv.Atoi (pageParam req) = Some p ->
  page_in_range p ->
  is_ceiling total (len movies) 3 /\
  (total < p ->
   findAllMovies req st
   = (Ret (error_response 400 "The requested page exceeds the total of pages"),
      sent st (dynamodb.CallScan params) w')) /\
  (p <= total ->
   findAllMovies req st
   = (Ret (data_response (page_json movies p total)),
      sent st (dynamodb.CallScan params) w')) /\
  (dynamodb.Items out = [] -> total = 0 /\ total < p).
Proof.
  intros params movies total Hscan Hwf Hlen Hp Hrange.
  pose proof (findAllMovies_page req st out w' p Hscan Hwf Hlen Hp Hrange) as Hrun.
  fold params movies total in Hrun.
  split; [apply ceiling_of_thirds|]. split; [| split].
  - intros Hgt. rewrite Hrun.
    by replace (p >? total) with true by (symmetry; apply Z.gtb_lt; lia).
  - intros Hle. rewrite Hrun.
    destruct (Z.gtb_spec p total); [lia | reflexivity].
  - intros Hempty. destruct Hrange as [Hp1 _].
    assert (Hzero : total = 0) by (subst total movies; by rewrite Hempty).
    lia.
Qed.

(** C6, amended. A create request whose body the decoder rejects is
    answered with status 400 and no request is sent to the table (the log
    and the service are as before): by the router's [insertMovie] with the
    error envelope "Invalid payload", by the single-operation [insert]
    with the plain text "Invalid payload: " followed by the decoder's
    error, and no header. *)
Theorem C6_unparsable_body_reaches_no_store (req : Request) (st : St W) (msg : string) :
  Unmarshal (events.Body req) = Err msg ->
  insertMovie req st = (Ret (error_response 400 "Invalid payload"), st)
  /\ Insert.insert req st = (Ret (bare_response 400 ("Invalid payload: " +:+ msg)), st).
Proof.
  intros Hbody. split.
  - by eapply insertMovie_invalid_payload.
  - unfold Insert.insert. rewrite Hbody. reflexivity.
Qed.

(** C7, amended. In a list request the page number is read from the
    [page] query parameter, with ["1"] in its place when the parameter is
    absent or empty. When the scan has succeeded with well-formed items
    and that value is rejected by [strconv.Atoi], the response is status
    500 with the error envelope "Only numbers accepted in page query
    string", whatever the collection is: no page is computed. When the
    scan fails, the response is status 500 with the envelope "Error while
    scanning DynamoDB", whatever the parameter is. *)
Theorem C7_page_parameter_read_and_parsed (req : Request) (st : St W) :
  let params := {| dynamodb.scan_TableName := Getenv "TABLE_NAME" |} in
  (events.QueryStringParameters req !! "page" = None -> pageParam req = "1") /\
  (events.QueryStringParameters req !! "page" = Some "" -> pageParam req = "1") /\
  (forall v, events.QueryStringParameters req !! "page" = Some v -> v <> "" ->
     pageParam req = v) /\
  (forall out w',
     dynamodb.Scan params (world st) = (Ok out, w') ->
     forallb well_formed_item (dynamodb.Items out) = true ->
     strconv.Atoi (pageParam req) = None ->
     findAllMovies req st
     = (Ret (error_response 500 "Only numbers accepted in page query string"),
        sent st (dynamodb.CallScan params) w')) /\
  (forall msg w',
     dynamodb.Scan params (world st) = (Err msg, w') ->
     findAllMovies req st
     = (Ret (error_response 500 "Error while scanning DynamoDB"),
        sent st (dynamodb.CallScan params) w')).
Proof.
  intros params.
  destruct (pageParam_cases req) as (Habsent & Hempty & Hvalue).
  split; [exact Habsent|]. split; [exact Hempty|]. split; [exact Hvalue|]. split.
  - intros out w' Hscan Hwf Hparse.
    rewrite (findAllMovies_scanned req st out w' Hscan Hwf). by rewrite Hparse.
  - intros msg w' Hscan. by apply (findAllMovies_scan_failed req st msg w').
Qed.

(** C8. A failure of the table during an update: the router's
    [updateMovie] answers with status 500 and the fixed envelope "Error
    updating movie from DynamoDB", whatever the error is, whereas the
    single-operation [update] appends the error text of the client to its
    body. *)
Theorem C8_update_echoes_the_store_error (req : Request) (st : St W)
    (movie : Movie) (msg : string) (w' : W) :
  Unmarshal (events.Body req) = Ok movie ->
  dynamodb.UpdateItem (updateParams movie) (world st) = (Err msg, w') ->
  updateMovie req st
  = (Ret (error_response 500 "Error updating movie from DynamoDB"),
     sent st (dynamodb.CallUpdateItem (updateParams movie)) w')
  /\ Update.update req st
     = (Ret (bare_response 500 ("Error updating movie from DynamoDB: " +:+ msg)),
        sent st (dynamodb.CallUpdateItem (updateParams movie)) w').
Proof.
  intros Hbody Hupd. split.
  - by rewrite (updateMovie_stored req st movie (Err msg) w' Hbody Hupd).
  - unfold Update.update, bind, call. rewrite Hbody. cbv beta iota zeta.
    rewrite Hupd. reflexivity.
Qed.

(** The single-operation [delete] and [insert] append the error text in
    the same way. *)
Lemma delete_echoes_the_store_error (req : Request) (st : St W)
    (movie : Movie) (msg : string) (w' : W) :
  Unmarshal (events.Body req) = Ok movie ->
  dynamodb.DeleteItem (deleteParams movie) (world st) = (Err msg, w') ->
  Delete.delete req st
  = (Ret (bare_response 500 ("Error deleting movie into DynamoDB: " +:+ msg)),
     sent st (dynamodb.CallDeleteItem (deleteParams movie)) w').
Proof.
  intros Hbody Hdel. unfold Delete.delete, bind, call. rewrite Hbody.
  cbv beta iota zeta. rewrite Hdel. reflexivity.
Qed.

Lemma insert_echoes_the_store_error (req : Request) (st : St W)
    (movie : Movie) (msg : string) (w' : W) :
  Unmarshal (events.Body req) = Ok movie ->
  dynamodb.PutItem (insertParams movie) (world st) = (Err msg, w') ->
  Insert.insert req st
  = (Ret (bare_response 500 ("Error inserting movie into DynamoDB: " +:+ msg)),
     sent st (dynamodb.CallPutItem (insertParams movie)) w').
Proof.
  intros Hbody Hput. unfold Insert.insert, bind, call. rewrite Hbody.
  cbv beta iota zeta. rewrite Hput. reflexivity.
Qed.

(** ** The shape of the router's responses *)

Lemma jsonHeaders_content_type :
  jsonHeaders !! "Content-Type" = Some "application/json".
Proof. unfold jsonHeaders. apply lookup_singleton_eq. Qed.

Lemma error_response_shaped (c : Z) (message : string) :
  error_status c -> error_shaped (fst (error_response c message)).
Proof.
  intros Hc. unfold error_shaped, error_response. cbn [fst events.StatusCode
    events.Headers events.RespBody].
  split; [exact Hc|]. split; [apply jsonHeaders_content_type|].
  by exists message.
Qed.

Lemma success_response_shaped (message : string) :
  success_shaped (fst (success_response message)).
Proof.
  unfold success_shaped, success_response. cbn [fst events.StatusCode
    events.Headers events.RespBody].
  split; [reflexivity|]. split; [apply jsonHeaders_content_type|].
  by exists message.
Qed.

Lemma movie_response_shaped (m : Movie) :
  read_shaped (fst (data_response (json.object_of_Movie m))).
Proof.
  unfold read_shaped, data_response. cbn [fst events.StatusCode
    events.Headers events.RespBody].
  split; [reflexivity|]. split; [apply jsonHeaders_content_type|].
  left. by exists m.
Qed.

Lemma page_response_shaped (pm : PaginatedMovie) (data : string) :
  json.Marshal_PaginatedMovie pm = Ok data ->
  read_shaped (fst (data_response data)).
Proof.
  intros Hdata. unfold read_shaped, data_response. cbn [fst events.StatusCode
    events.Headers events.RespBody].
  split; [reflexivity|]. split; [apply jsonHeaders_content_type|].
  right. by exists pm.
Qed.

(** The envelopes are envelopes. *)
Lemma jsonErrorResponse_envelope (message : string) :
  is_envelope (jsonErrorResponse message).
Proof. by exists false, message. Qed.

Lemma jsonSuccessResponse_envelope (message : string) :
  is_envelope (jsonSuccessResponse message).
Proof. by exists true, message. Qed.

Ltac error_shape c :=
  eexists _, _; split; [reflexivity|]; left;
  apply (error_response_shaped c); unfold error_status; tauto.

Lemma findAllMovies_shaped (req : Request) (st : St W) :
  well_formed_answers (world st) ->
  (forall p, strconv.Atoi (pageParam req) = Some p -> page_in_range p) ->
  exists resp st',
    findAllMovies req st = (Ret (resp, nil), st')
    /\ (error_shaped resp \/ read_shaped resp).
Proof.
  intros [Hscan_wf _] Hpage.
  set (params := {| dynamodb.scan_TableName := Getenv "TABLE_NAME" |}).
  destruct (dynamodb.Scan params (world st)) as [[out | msg] w'] eqn:Hscan.
  - rewrite (findAllMovies_scanned req st out w' Hscan (Hscan_wf _ _ _ Hscan)).
    destruct (strconv.Atoi (pageParam req)) as [p |] eqn:Hp; [| error_shape 500].
    destruct (paginate_returns (sorted_collection (dynamodb.Items out)) p (Hpage p eq_refl))
      as [total ->].
    destruct (p >? total); [error_shape 400|].
    destruct (json.Marshal_PaginatedMovie _) as [data | e] eqn:Hdata; [| error_shape 500].
    eexists _, _. split; [reflexivity|]. right.
    eapply page_response_shaped. exact Hdata.
  - rewrite (findAllMovies_scan_failed req st msg w' Hscan). error_shape 500.
Qed.

Lemma findOneMovie_shaped (req : Request) (st : St W) :
  well_formed_answers (world st) ->
  exists resp st',
    findOneMovie req st = (Ret (resp, nil), st')
    /\ (error_shaped resp \/ read_shaped resp).
Proof.
  intros [_ Hget_wf].
  set (params := findOneParams (go_index (events.PathParameters req) "id")).
  destruct (dynamodb.GetItem params (world st)) as [[out | msg] w'] eqn:Hget.
  - destruct (Hget_wf _ _ _ Hget) as [Hnone | Hwf].
    + rewrite (findOneMovie_not_found req st out w' Hget Hnone). error_shape 404.
    + destruct (well_formed_item_inv _ Hwf) as (id & name & _ & _ & Hm & _).
      rewrite (findOneMovie_found req st out w' _ Hget Hm).
      eexists _, _. split; [reflexivity|]. right. apply movie_response_shaped.
  - rewrite (findOneMovie_store_failed req st msg w' Hget). error_shape 500.
Qed.

Lemma insertMovie_shaped (req : Request) (st : St W) :
  exists resp st',
    insertMovie req st = (Ret (resp, nil), st')
    /\ (error_shaped resp \/ success_shaped resp).
Proof.
  destruct (Unmarshal (events.Body req)) as [movie | msg] eqn:Hbody.
  - destruct (dynamodb.PutItem (insertParams movie) (world st)) as [r w'] eqn:Hput.
    rewrite (insertMovie_stored req st movie r w' Hbody Hput).
    destruct r; [| error_shape 500].
    eexists _, _. split; [reflexivity|]. right. apply success_response_shaped.
  - rewrite (insertMovie_invalid_payload req st msg Hbody). error_shape 400.
Qed.

Lemma updateMovie_shaped (req : Request) (st : St W) :
  exists resp st',
    updateMovie req st = (Ret (resp, nil), st')
    /\ (error_shaped resp \/ success_shaped resp).
Proof.
  destruct (Unmarshal (events.Body req)) as [movie | msg] eqn:Hbody.
  - destruct (dynamodb.UpdateItem (updateParams movie) (world st)) as [r w'] eqn:Hupd.
    rewrite (updateMovie_stored req st movie r w' Hbody Hupd).
    destruct r; [| error_shape 500].
    eexists _, _. split; [reflexivity|]. right. apply success_response_shaped.
  - rewrite (updateMovie_invalid_payload req st msg Hbody). error_shape 400.
Qed.

Lemma deleteMovie_shaped (req : Request) (st : St W) :
  exists resp st',
    deleteMovie req st = (Ret (resp, nil), st')
    /\ (error_shaped resp \/ success_shaped resp).
Proof.
  destruct (Unmarshal (events.Body req)) as [movie | msg] eqn:Hbody.
  - destruct (dynamodb.DeleteItem (deleteParams movie) (world st)) as [r w'] eqn:Hdel.
    rewrite (deleteMovie_stored req st movie r w' Hbody Hdel).
    destruct r; [| error_shape 500].
    eexists _, _. split; [reflexivity|]. right. apply success_response_shaped.
  - rewrite (deleteMovie_invalid_payload req st msg Hbody). error_shape 400.
Qed.

(** C9, amended. For every request the router handles, when the table
    answers its scan or lookup with well-formed items and, in a list
    request, a page parameter that parses gives a page number p with
    1 <= p and 3 * p inside the int range: the router returns a response
    with a nil error and the header [Content-Type: application/json],
    which is an error (status 400, 404, 405 or 500 and the envelope
    [{success: false, message}]), or else, with status 200, the envelope
    [{success: true, message}] for the three writes and the JSON of a
    movie or of a page for the two reads. The single-operation lambdas are
    built otherwise: the response of [update] to a body it cannot decode
    has no header and a plain-text body. *)
Theorem C9_router_responses_are_structured (req : Request) (st : St W) :
  well_formed_answers (world st) ->
  (events.HTTPMethod req = "GET" ->
   go_index (events.PathParameters req) "id" = "" ->
   forall p, strconv.Atoi (pageParam req) = Some p -> page_in_range p) ->
  (exists resp st',
     handleRequest req st = (Ret (resp, nil), st') /\ structured req resp)
  /\ (forall msg, Unmarshal (events.Body req) = Err msg ->
        Update.update req st
        = (Ret (bare_response 400 ("Invalid payload: " +:+ msg)), st)).
Proof.
  intros Hwf Hpage. split.
  - unfold handleRequest, structured, http.MethodGet, http.MethodPost,
      http.MethodPut, http.MethodDelete.
    destruct (String.eqb_spec (events.HTTPMethod req) "GET") as [Hget | _].
    + destruct (String.eqb_spec (go_index (events.PathParameters req) "id") "") as [Hid | _].
      * apply findAllMovies_shaped; auto.
      * by apply findOneMovie_shaped.
    + destruct (String.eqb (events.HTTPMethod req) "POST");
        [apply insertMovie_shaped|].
      destruct (String.eqb (events.HTTPMethod req) "PUT");
        [apply updateMovie_shaped|].
      destruct (String.eqb (events.HTTPMethod req) "DELETE");
        [apply deleteMovie_shaped|].
      error_shape 405.
  - intros msg Hbody. unfold Update.update. rewrite Hbody. reflexivity.
Qed.

End Operations.

(** ** The bounds of the slice *)

(** Page 0 is not guarded: the offset is negative and the slice
    expression panics. *)
Lemma paginate_page_zero (movies : list Movie) :
  paginateMovies movies 0 3 = Panic slice_bounds_out_of_range.
Proof.
  pose proof (len_nonneg movies) as Hn. unfold paginateMovies, sliceBounds.
  change (wrap64 (0 - 1)) with (-1). change (wrap64 (-1 * 3)) with (-3).
  change (wrap64 (-3 + 3)) with 0.
  destruct (Z.gtb_spec (-3) (len movies)); [lia|].
  destruct (Z.gtb_spec 0 (len movies)); [lia|].
  cbv beta iota zeta. by rewrite go_slice_negative by lia.
Qed.

(** C10. Page number 4611686018427387905 (2^62 + 1) with page size 3
    satisfies [1 <= page] and [1 <= size], yet the offset
    [(page - 1) * size] overflows the 64-bit int: both bounds computed by
    [paginateMovies] are negative, neither is clamped, and the slice
    expression panics, whatever the collection is. *)
Theorem C10_offset_overflow_breaks_the_bounds (movies : list Movie) :
  1 <= 4611686018427387905 <= MaxInt64 /\
  sliceBounds (len movies) 4611686018427387905 3
  = (-4611686018427387904, -4611686018427387901) /\
  paginateMovies movies 4611686018427387905 3 = Panic slice_bounds_out_of_range.
Proof.
  pose proof (len_nonneg movies) as Hn.
  assert (Hb : sliceBounds (len movies) 4611686018427387905 3
               = (-4611686018427387904, -4611686018427387901)).
  { unfold sliceBounds.
    change (wrap64 (4611686018427387905 - 1)) with 4611686018427387904.
    change (wrap64 (4611686018427387904 * 3)) with (-4611686018427387904).
    change (wrap64 (-4611686018427387904 + 3)) with (-4611686018427387901).
    destruct (Z.gtb_spec (-4611686018427387904) (len movies)); [lia|].
    destruct (Z.gtb_spec (-4611686018427387901) (len movies)); [lia|].
    reflexivity. }
  split; [unfold MaxInt64; lia|]. split; [exact Hb|].
  unfold paginateMovies. rewrite Hb. by rewrite go_slice_negative by lia.
Qed.

(* ================================================================== *)
(** * The claims on the in-memory table                                *)
(* ================================================================== *)

(** The in-memory table answers with the items it holds. *)
Lemma mem_well_formed_answers (t : InMemory.Table) :
  forallb well_formed_item (InMemory.rows t) = true ->
  @well_formed_answers InMemory.Table InMemory.api t.
Proof.
  intros Hrows. split.
  - intros i out w' Hscan. cbn in Hscan. unfold InMemory.mem_Scan, InMemory.guarded in Hscan.
    destruct (InMemory.outage t); [discriminate|].
    injection Hscan as <- _. exact Hrows.
  - intros i out w' Hget. cbn in Hget.
    unfold InMemory.mem_GetItem, InMemory.guarded in Hget.
    destruct (InMemory.outage t); [discriminate|].
    injection Hget as <- _. cbn [dynamodb.Item_].
    destruct (List.find _ (InMemory.rows t)) as [item |] eqn:Hfind.
    + right. apply find_some in Hfind as [Hin _].
      rewrite forallb_forall in Hrows. by apply Hrows.
    + left. reflexivity.
Qed.

Lemma C2_witness :
  (events.HTTPMethod (InMemory.get ∅ ∅) = "GET"
   /\ events.PathParameters (InMemory.get ∅ ∅) !! "id" = None
   /\ InMemory.router (InMemory.get ∅ ∅) = InMemory.listing (InMemory.get ∅ ∅))
  /\ (events.PathParameters (InMemory.get {[ "id" := "m1" ]} ∅) !! "id" = Some "m1"
      /\ "m1" <> ""
      /\ InMemory.router (InMemory.get {[ "id" := "m1" ]} ∅)
         = InMemory.get_one (InMemory.get {[ "id" := "m1" ]} ∅))
  /\ (events.HTTPMethod (InMemory.send "POST" "") = "POST"
      /\ InMemory.router (InMemory.send "POST" "") = InMemory.create (InMemory.send "POST" "")).
Proof.
  assert (Hid : "m1" <> "") by discriminate.
  split; [| split].
  - split; [reflexivity|]. split; [vm_compute; reflexivity|].
    apply (proj1 (@C2_dispatch_by_method_and_id InMemory.Table InMemory.api InMemory.env
                    InMemory.codec (InMemory.get ∅ ∅)));
      [reflexivity | vm_compute; reflexivity].
  - split; [vm_compute; reflexivity|]. split; [exact Hid|].
    apply (proj1 (proj2 (proj2 (@C2_dispatch_by_method_and_id InMemory.Table InMemory.api
                    InMemory.env InMemory.codec (InMemory.get {[ "id" := "m1" ]} ∅))))
             eq_refl "m1");
      [vm_compute; reflexivity | exact Hid].
  - split; [reflexivity|].
    apply (proj1 (proj2 (proj2 (proj2 (@C2_dispatch_by_method_and_id InMemory.Table
                    InMemory.api InMemory.env InMemory.codec (InMemory.send "POST" ""))))));
      reflexivity.
Defined.

(** C2 as stated fails: a GET whose [id] path parameter is present but
    empty is dispatched to the list operation (the table is scanned, the
    empty table has no page 1: status 400), not to the get-one operation
    (which would answer 404). *)
Lemma C2_counterexample :
  events.HTTPMethod (InMemory.get {[ "id" := "" ]} ∅) = "GET"
  /\ is_Some (events.PathParameters (InMemory.get {[ "id" := "" ]} ∅) !! "id")
  /\ InMemory.router (InMemory.get {[ "id" := "" ]} ∅)
     = InMemory.listing (InMemory.get {[ "id" := "" ]} ∅)
  /\ InMemory.router (InMemory.get {[ "id" := "" ]} ∅) (InMemory.start (InMemory.table_of []))
     <> InMemory.get_one (InMemory.get {[ "id" := "" ]} ∅) (InMemory.start (InMemory.table_of []))
  /\ status_of (InMemory.router (InMemory.get {[ "id" := "" ]} ∅)
                  (InMemory.start (InMemory.table_of []))) = Some 400
  /\ status_of (InMemory.get_one (InMemory.get {[ "id" := "" ]} ∅)
                  (InMemory.start (InMemory.table_of []))) = Some 404.
Proof.
  split; [reflexivity|]. split; [by eexists; vm_compute|]. split; [reflexivity|].
  split; [| split; vm_compute; reflexivity].
  intros Heq. apply (f_equal status_of) in Heq. vm_compute in Heq. discriminate.
Qed.

Lemma C3_witness :
  (@dynamodb.GetItem InMemory.Table InMemory.api
     (@findOneParams InMemory.env "missing") (InMemory.table_of [])
   = (Ok {| dynamodb.Item_ := ∅ |}, InMemory.table_of []))
  /\ size (dynamodb.Item_ {| dynamodb.Item_ := ∅ |}) = 0%nat
  /\ status_of (InMemory.get_one (InMemory.get {[ "id" := "missing" ]} ∅)
                  (InMemory.start (InMemory.table_of []))) = Some 404
  /\ fst (InMemory.lambda_findOne (InMemory.get {[ "id" := "missing" ]} ∅)
            (InMemory.start (InMemory.table_of [])))
     = Panic nil_pointer_dereference.
Proof.
  assert (Hget : @dynamodb.GetItem InMemory.Table InMemory.api
                   (@findOneParams InMemory.env "missing") (InMemory.table_of [])
                 = (Ok {| dynamodb.Item_ := ∅ |}, InMemory.table_of []))
    by reflexivity.
  assert (Hsize : size (dynamodb.Item_ {| dynamodb.Item_ := ∅ |}) = 0%nat)
    by reflexivity.
  split; [exact Hget|]. split; [exact Hsize|].
  destruct (@C3_findOne_panics_on_a_missing_id InMemory.Table InMemory.api InMemory.env
              InMemory.codec (InMemory.get {[ "id" := "missing" ]} ∅)
              (InMemory.start (InMemory.table_of [])) _ _ Hget Hsize) as [Hrouter Hlambda].
  unfold InMemory.get_one, InMemory.lambda_findOne. rewrite Hrouter, Hlambda.
  split; reflexivity.
Defined.

Lemma C4_witness :
  (@dynamodb.Scan InMemory.Table InMemory.api
     {| dynamodb.scan_TableName := @Getenv InMemory.env "TABLE_NAME" |} InMemory.four
   = (Ok {| dynamodb.Items := InMemory.rows InMemory.four |}, InMemory.four))
  /\ forallb well_formed_item (InMemory.rows InMemory.four) = true
  /\ len (InMemory.rows InMemory.four) < 2 ^ 53
  /\ strconv.Atoi (pageParam (InMemory.get ∅ {[ "page" := "10" ]})) = Some 10
  /\ page_in_range 10
  /\ InMemory.listing (InMemory.get ∅ {[ "page" := "10" ]}) (InMemory.start InMemory.four)
     = (Ret (@error_response InMemory.codec 400
               "The requested page exceeds the total of pages"),
        sent (InMemory.start InMemory.four)
          (dynamodb.CallScan {| dynamodb.scan_TableName := "movies" |}) InMemory.four).
Proof.
  assert (Hscan : @dynamodb.Scan InMemory.Table InMemory.api
            {| dynamodb.scan_TableName := @Getenv InMemory.env "TABLE_NAME" |} InMemory.four
          = (Ok {| dynamodb.Items := InMemory.rows InMemory.four |}, InMemory.four))
    by reflexivity.
  assert (Hwf : forallb well_formed_item (InMemory.rows InMemory.four) = true)
    by (vm_compute; reflexivity).
  assert (Hlen : len (InMemory.rows InMemory.four) < 2 ^ 53)
    by (vm_compute; reflexivity).
  assert (Hp : strconv.Atoi (pageParam (InMemory.get ∅ {[ "page" := "10" ]})) = Some 10)
    by (vm_compute; reflexivity).
  assert (Hrange : page_in_range 10) by (unfold page_in_range, MaxInt64; lia).
  repeat (split; [assumption|]).
  destruct (@C4_page_served_or_exceeding InMemory.Table InMemory.api InMemory.env
              InMemory.codec (InMemory.get ∅ {[ "page" := "10" ]})
              (InMemory.start InMemory.four) _ _ 10 Hscan Hwf Hlen Hp Hrange)
    as (_ & Hexceeds & _ & _).
  apply Hexceeds. vm_compute. reflexivity.
Defined.

(** C4 as stated fails on the collection of two pages: for page 10 the
    message of the envelope is "The requested page exceeds the total of
    pages", not "requested page exceeds total pages"; and for page
    4611686018427387905, which exceeds the page count as well, there is no
    response at all: the run panics in [paginateMovies]. *)
Lemma C4_counterexample :
  body_of (InMemory.router (InMemory.get ∅ {[ "page" := "10" ]})
             (InMemory.start InMemory.four))
  = Some (@jsonErrorResponse InMemory.codec "The requested page exceeds the total of pages")
  /\ @jsonErrorResponse InMemory.codec "The requested page exceeds the total of pages"
     <> @jsonErrorResponse InMemory.codec "requested page exceeds total pages"
  /\ strconv.Atoi (pageParam (InMemory.get ∅ {[ "page" := "4611686018427387905" ]}))
     = Some 4611686018427387905
  /\ fst (InMemory.router (InMemory.get ∅ {[ "page" := "4611686018427387905" ]})
            (InMemory.start InMemory.four))
     = Panic slice_bounds_out_of_range.
Proof.
  split; [vm_compute; reflexivity|]. split; [vm_compute; discriminate|].
  split; vm_compute; reflexivity.
Qed.

Lemma C6_witness :
  @Unmarshal InMemory.codec (events.Body (InMemory.send "POST" "not-json"))
  = Err InMemory.syntax_error
  /\ InMemory.create (InMemory.send "POST" "not-json") (InMemory.start InMemory.four)
     = (Ret (@error_response InMemory.codec 400 "Invalid payload"),
        InMemory.start InMemory.four)
  /\ InMemory.lambda_insert (InMemory.send "POST" "not-json") (InMemory.start InMemory.four)
     = (Ret (bare_response 400 ("Invalid payload: " +:+ InMemory.syntax_error)),
        InMemory.start InMemory.four).
Proof.
  assert (Hbody : @Unmarshal InMemory.codec (events.Body (InMemory.send "POST" "not-json"))
                  = Err InMemory.syntax_error) by reflexivity.
  split; [exact Hbody|].
  exact (@C6_unparsable_body_reaches_no_store InMemory.Table InMemory.api InMemory.env
           InMemory.codec (InMemory.send "POST" "not-json") (InMemory.start InMemory.four)
           InMemory.syntax_error Hbody).
Defined.

(** C6 as stated fails on the single-operation [insert]: its answer to the
    body [not-json] has status 400 and leaves the table alone, but its
    body is plain text and no envelope, and it carries no header. *)
Lemma C6_counterexample :
  status_of (InMemory.lambda_insert (InMemory.send "POST" "not-json")
               (InMemory.start InMemory.four)) = Some 400
  /\ snd (InMemory.lambda_insert (InMemory.send "POST" "not-json")
            (InMemory.start InMemory.four)) = InMemory.start InMemory.four
  /\ body_of (InMemory.lambda_insert (InMemory.send "POST" "not-json")
                (InMemory.start InMemory.four))
     = Some "Invalid payload: invalid character in the JSON input"
  /\ ~ @is_envelope InMemory.codec "Invalid payload: invalid character in the JSON input".
Proof.
  split; [reflexivity|]. split; [reflexivity|]. split; [reflexivity|].
  intros (success & message & Henv). cbn in Henv. discriminate.
Qed.

Lemma C7_witness :
  (@dynamodb.Scan InMemory.Table InMemory.api
     {| dynamodb.scan_TableName := @Getenv InMemory.env "TABLE_NAME" |} InMemory.four
   = (Ok {| dynamodb.Items := InMemory.rows InMemory.four |}, InMemory.four))
  /\ forallb well_formed_item (InMemory.rows InMemory.four) = true
  /\ events.QueryStringParameters (InMemory.get ∅ {[ "page" := "abc" ]}) !! "page"
     = Some "abc"
  /\ "abc" <> ""
  /\ strconv.Atoi "abc" = None
  /\ InMemory.listing (InMemory.get ∅ {[ "page" := "abc" ]}) (InMemory.start InMemory.four)
     = (Ret (@error_response InMemory.codec 500
               "Only numbers accepted in page query string"),
        sent (InMemory.start InMemory.four)
          (dynamodb.CallScan {| dynamodb.scan_TableName := "movies" |}) InMemory.four).
Proof.
  assert (Hscan : @dynamodb.Scan InMemory.Table InMemory.api
            {| dynamodb.scan_TableName := @Getenv InMemory.env "TABLE_NAME" |} InMemory.four
          = (Ok {| dynamodb.Items := InMemory.rows InMemory.four |}, InMemory.four))
    by reflexivity.
  assert (Hwf : forallb well_formed_item (InMemory.rows InMemory.four) = true)
    by (vm_compute; reflexivity).
  assert (Hq : events.QueryStringParameters (InMemory.get ∅ {[ "page" := "abc" ]}) !! "page"
               = Some "abc") by (vm_compute; reflexivity).
  assert (Hne : "abc" <> "") by discriminate.
  assert (Hparse : strconv.Atoi "abc" = None) by reflexivity.
  repeat (split; [assumption|]).
  destruct (@C7_page_parameter_read_and_parsed InMemory.Table InMemory.api InMemory.env
              InMemory.codec (InMemory.get ∅ {[ "page" := "abc" ]})
              (InMemory.start InMemory.four))
    as (_ & _ & Hvalue & Hreject & _).
  apply (Hreject _ _ Hscan Hwf). rewrite (Hvalue "abc" Hq Hne). exact Hparse.
Defined.

(** C7 as stated fails: the empty value of [page] does not parse as an
    integer, yet it is replaced by ["1"] and the first page is served with
    status 200; and for the value [abc] the message of the envelope is
    "Only numbers accepted in page query string", not "only numbers
    accepted in page parameter". *)
Lemma C7_counterexample :
  events.QueryStringParameters (InMemory.get ∅ {[ "page" := "" ]}) !! "page" = Some ""
  /\ strconv.Atoi "" = None
  /\ status_of (InMemory.router (InMemory.get ∅ {[ "page" := "" ]})
                  (InMemory.start InMemory.four)) = Some 200
  /\ body_of (InMemory.router (InMemory.get ∅ {[ "page" := "abc" ]})
                (InMemory.start InMemory.four))
     = Some (@jsonErrorResponse InMemory.codec "Only numbers accepted in page query string")
  /\ @jsonErrorResponse InMemory.codec "Only numbers accepted in page query string"
     <> @jsonErrorResponse InMemory.codec "only numbers accepted in page parameter".
Proof.
  split; [vm_compute; reflexivity|]. split; [reflexivity|].
  split; [vm_compute; reflexivity|]. split; [vm_compute; reflexivity|].
  vm_compute. discriminate.
Qed.

Lemma C8_witness :
  @Unmarshal InMemory.codec (events.Body (InMemory.send "PUT" InMemory.alpha_body))
  = Ok {| ID := "m1"; Name := "Alpha" |}
  /\ (@dynamodb.UpdateItem InMemory.Table InMemory.api
        (@updateParams InMemory.env {| ID := "m1"; Name := "Alpha" |}) InMemory.down
      = (Err "ResourceNotFoundException: Requested resource not found", InMemory.down))
  /\ body_of (InMemory.modify (InMemory.send "PUT" InMemory.alpha_body)
                (InMemory.start InMemory.down))
     = Some (@jsonErrorResponse InMemory.codec "Error updating movie from DynamoDB")
  /\ body_of (InMemory.lambda_update (InMemory.send "PUT" InMemory.alpha_body)
                (InMemory.start InMemory.down))
     = Some ("Error updating movie from DynamoDB: "
             +:+ "ResourceNotFoundException: Requested resource not found").
Proof.
  assert (Hbody : @Unmarshal InMemory.codec
                    (events.Body (InMemory.send "PUT" InMemory.alpha_body))
                  = Ok {| ID := "m1"; Name := "Alpha" |}) by reflexivity.
  assert (Hupd : @dynamodb.UpdateItem InMemory.Table InMemory.api
                   (@updateParams InMemory.env {| ID := "m1"; Name := "Alpha" |})
                   InMemory.down
                 = (Err "ResourceNotFoundException: Requested resource not found",
                    InMemory.down)) by reflexivity.
  split; [exact Hbody|]. split; [exact Hupd|].
  destruct (@C8_update_echoes_the_store_error InMemory.Table InMemory.api InMemory.env
              InMemory.codec (InMemory.send "PUT" InMemory.alpha_body)
              (InMemory.start InMemory.down) _ _ _ Hbody Hupd) as [Hrouter Hlambda].
  unfold InMemory.modify, InMemory.lambda_update. rewrite Hrouter, Hlambda.
  split; reflexivity.
Defined.

Lemma C9_witness :
  @well_formed_answers InMemory.Table InMemory.api InMemory.four
  /\ strconv.Atoi (pageParam (InMemory.get ∅ {[ "page" := "2" ]})) = Some 2
  /\ page_in_range 2
  /\ exists resp st',
       InMemory.router (InMemory.get ∅ {[ "page" := "2" ]}) (InMemory.start InMemory.four)
       = (Ret (resp, nil), st')
       /\ @structured InMemory.codec (InMemory.get ∅ {[ "page" := "2" ]}) resp.
Proof.
  assert (Hwf : @well_formed_answers InMemory.Table InMemory.api InMemory.four)
    by (apply mem_well_formed_answers; vm_compute; reflexivity).
  assert (Hp : strconv.Atoi (pageParam (InMemory.get ∅ {[ "page" := "2" ]})) = Some 2)
    by (vm_compute; reflexivity).
  assert (Hrange : page_in_range 2) by (unfold page_in_range, MaxInt64; lia).
  split; [exact Hwf|]. split; [exact Hp|]. split; [exact Hrange|].
  apply (@C9_router_responses_are_structured InMemory.Table InMemory.api InMemory.env
           InMemory.codec (InMemory.get ∅ {[ "page" := "2" ]})
           (InMemory.start InMemory.four) Hwf).
  intros _ _ p Hp'. rewrite Hp in Hp'. injection Hp' as <-. exact Hrange.
Defined.

(** C9 as stated fails: the single-operation [update] answers a body it
    cannot decode with a response that has no [Content-Type] header and a
    plain-text body, no envelope; and the router itself, on a list request
    for page 0, returns no response at all: it panics. *)
Lemma C9_counterexample :
  (exists resp,
     InMemory.lambda_update (InMemory.send "PUT" "not-json") (InMemory.start InMemory.four)
     = (Ret (resp, nil), InMemory.start InMemory.four)
     /\ events.Headers resp !! "Content-Type" = None
     /\ events.RespBody resp = "Invalid payload: invalid character in the JSON input"
     /\ ~ @is_envelope InMemory.codec (events.RespBody resp))
  /\ strconv.Atoi (pageParam (InMemory.get ∅ {[ "page" := "0" ]})) = Some 0
  /\ fst (InMemory.router (InMemory.get ∅ {[ "page" := "0" ]})
            (InMemory.start InMemory.four))
     = Panic slice_bounds_out_of_range.
Proof.
  split; [| split; vm_compute; reflexivity].
  eexists. split; [reflexivity|]. cbn [events.Headers events.RespBody].
  split; [apply lookup_empty|]. split; [reflexivity|].
  intros (success & message & Henv). cbn in Henv. discriminate.
Qed.

(* ================================================================== *)
(** * Further properties of the paginator                              *)
(* ================================================================== *)

Lemma window_length {A : Type} (l : list A) (lo hi : Z) :
  0 <= lo <= hi ->
  len (window l lo hi) = Z.min (hi - lo) (Z.max 0 (len l - lo)).
Proof.
  intros Hb. unfold len. rewrite window_take_drop by lia.
  rewrite length_take, length_drop. lia.
Qed.

(** X1. For every page size: when the page number and the page size are
    at least 1 and their product fits the int, [paginateMovies] returns
    the window from offset (page - 1) * size through page * size clipped
    to the collection; it holds [size] movies, or what is left of the
    collection after the offset when that is less (none past the end). *)
Theorem X1_paginate_any_page_size (movies : list Movie) (p s : Z) :
  1 <= p -> 1 <= s -> p * s <= MaxInt64 ->
  exists total,
    paginateMovies movies p s = Ret (window movies ((p - 1) * s) (p * s), total)
    /\ len (window movies ((p - 1) * s) (p * s))
       = Z.min s (Z.max 0 (len movies - (p - 1) * s)).
Proof.
  intros Hp Hs Hmax. pose proof (len_nonneg movies) as Hn.
  assert (Hoff : 0 <= (p - 1) * s <= p * s) by nia.
  eexists. split.
  - unfold paginateMovies. rewrite sliceBounds_exact by lia.
    rewrite go_slice_window by (unfold len in *; lia).
    rewrite window_clamped by lia. reflexivity.
  - rewrite window_length by lia. f_equal. lia.
Qed.

Lemma X1_witness :
  1 <= 2 /\ 1 <= 5 /\ 2 * 5 <= MaxInt64
  /\ exists total,
       paginateMovies InMemory.seven 2 5
       = Ret (window InMemory.seven ((2 - 1) * 5) (2 * 5), total)
       /\ len (window InMemory.seven ((2 - 1) * 5) (2 * 5))
          = Z.min 5 (Z.max 0 (len InMemory.seven - (2 - 1) * 5)).
Proof.
  assert (H1 : 1 <= 2) by lia. assert (H2 : 1 <= 5) by lia.
  assert (H3 : 2 * 5 <= MaxInt64) by (unfold MaxInt64; lia).
  split; [exact H1|]. split; [exact H2|]. split; [exact H3|].
  exact (X1_paginate_any_page_size InMemory.seven 2 5 H1 H2 H3).
Defined.

(** X2. Whatever the page number and the page size are, overflowing ones
    included, [paginateMovies] either panics on the slice bounds or
    returns a run of consecutive movies of the collection: it never reads
    past the end, never reorders and never repeats. *)
Theorem X2_paginate_returns_a_run_or_panics (movies : list Movie) (p s : Z) :
  paginateMovies movies p s = Panic slice_bounds_out_of_range
  \/ exists paged total before after,
       paginateMovies movies p s = Ret (paged, total)
       /\ movies = before ++ paged ++ after.
Proof.
  unfold paginateMovies. destruct (sliceBounds (len movies) p s) as [a b].
  unfold go_slice.
  destruct ((0 <=? a) && (a <=? b) && (b <=? len movies)); [| by left].
  right. eexists _, _, (take (Z.to_nat a) movies), _. split; [reflexivity|].
  by rewrite (take_drop (Z.to_nat (b - a))), take_drop.
Qed.

(** X3. With page size 3 and a collection of fewer than 2^53 movies:
    every page before the last holds exactly 3 movies, and the last page
    holds the rest, between 1 and 3 movies. *)
Theorem X3_full_pages_then_the_rest (movies : list Movie) (p : Z) :
  len movies < 2 ^ 53 ->
  1 <= p <= (len movies + 2) / 3 ->
  exists paged,
    paginateMovies movies p 3 = Ret (paged, (len movies + 2) / 3)
    /\ (p < (len movies + 2) / 3 -> len paged = 3)
    /\ (p = (len movies + 2) / 3 ->
        len paged = len movies - 3 * (p - 1) /\ 1 <= len paged <= 3).
Proof.
  intros Hlen Hp. pose proof (len_nonneg movies) as Hn.
  assert (Hrange : page_in_range p)
    by (unfold page_in_range, MaxInt64; split; [lia | zdiv]).
  eexists. split; [by apply paginate_in_range|].
  rewrite window_length by lia. split; intros Hcase; zdiv.
Qed.

Lemma X3_witness :
  len InMemory.seven < 2 ^ 53
  /\ 1 <= 3 <= (len InMemory.seven + 2) / 3
  /\ exists paged,
       paginateMovies InMemory.seven 3 3 = Ret (paged, (len InMemory.seven + 2) / 3)
       /\ (3 < (len InMemory.seven + 2) / 3 -> len paged = 3)
       /\ (3 = (len InMemory.seven + 2) / 3 ->
           len paged = len InMemory.seven - 3 * (3 - 1) /\ 1 <= len paged <= 3).
Proof.
  assert (H1 : len InMemory.seven < 2 ^ 53) by (vm_compute; reflexivity).
  assert (H2 : 1 <= 3 <= (len InMemory.seven + 2) / 3)
    by (split; vm_compute; discriminate).
  split; [exact H1|]. split; [exact H2|].
  exact (X3_full_pages_then_the_rest InMemory.seven 3 H1 H2).
Defined.

(** A page number at or below zero, with no overflow: the offset is
    negative and the slice expression panics. *)
Lemma paginate_nonpositive (movies : list Movie) (p : Z) :
  p <= 0 -> MinInt64 <= 3 * (p - 1) ->
  paginateMovies movies p 3 = Panic slice_bounds_out_of_range.
Proof.
  intros Hp Hmin. pose proof (len_nonneg movies) as Hn.
  assert (Hm : MinInt64 = - 2 ^ 63) by reflexivity.
  assert (HM : MaxInt64 = 2 ^ 63 - 1) by reflexivity.
  unfold paginateMovies, sliceBounds.
  rewrite (wrap64_id (p - 1)) by lia.
  rewrite (wrap64_id ((p - 1) * 3)) by lia.
  rewrite (wrap64_id ((p - 1) * 3 + 3)) by lia.
  destruct (Z.gtb_spec ((p - 1) * 3) (len movies)); [lia|].
  destruct (Z.gtb_spec ((p - 1) * 3 + 3) (len movies)); [lia|].
  cbv beta iota zeta. by rewrite go_slice_negative by lia.
Qed.

(* ================================================================== *)
(** * Further properties of the operations                             *)
(* ================================================================== *)

Lemma deref_S_panic (item : dynamodb.Item) (k : string) (e : runtime_error) :
  dynamodb.deref_S item k = Panic e -> e = nil_pointer_dereference.
Proof.
  unfold dynamodb.deref_S. destruct (item !! k) as [av |]; [| congruence].
  destruct (dynamodb.S av); congruence.
Qed.

Lemma movie_of_item_malformed (item : dynamodb.Item) :
  well_formed_item item = false ->
  (dynamodb.deref_S item "ID" = Panic nil_pointer_dereference)
  \/ (exists id, dynamodb.deref_S item "ID" = Ret id
                 /\ dynamodb.deref_S item "Name" = Panic nil_pointer_dereference).
Proof.
  unfold well_formed_item, movie_of_item. intros Hwf.
  destruct (dynamodb.deref_S item "ID") as [id | e] eqn:Hid; cbn [obind] in Hwf.
  - right. exists id. split; [reflexivity|].
    destruct (dynamodb.deref_S item "Name") as [name | e] eqn:Hname;
      cbn [obind] in Hwf; [discriminate|].
    by rewrite (deref_S_panic _ _ _ Hname).
  - left. by rewrite (deref_S_panic _ _ _ Hid).
Qed.

Lemma range_Items_malformed (items : list dynamodb.Item) (acc : list Movie) :
  forallb well_formed_item items = false ->
  range_Items items acc = Panic nil_pointer_dereference.
Proof.
  revert acc. induction items as [| item items IH]; intros acc Hwf; [discriminate|].
  cbn [forallb] in Hwf. cbn [range_Items].
  destruct (well_formed_item item) eqn:Hitem.
  - destruct (well_formed_item_inv _ Hitem) as (id & name & -> & -> & _).
    cbn [obind]. apply IH. exact Hwf.
  - destruct (movie_of_item_malformed _ Hitem) as [-> | (id & -> & ->)]; reflexivity.
Qed.

Lemma Sorted_drop {A : Type} (R : A -> A -> Prop) (l : list A) (n : nat) :
  Sorted R l -> Sorted R (drop n l).
Proof.
  revert l. induction n as [| n IH]; intros l Hs; [by rewrite drop_0|].
  destruct l as [| x l]; [constructor|].
  cbn [drop skipn]. apply IH. by apply Sorted_inv in Hs as [Hs _].
Qed.

Lemma Sorted_take {A : Type} (R : A -> A -> Prop) (l : list A) (n : nat) :
  Sorted R l -> Sorted R (take n l).
Proof.
  revert l. induction n as [| n IH]; intros l Hs; [constructor|].
  destruct l as [| x l]; [constructor|].
  apply Sorted_inv in Hs as [Hs Hx]. cbn [take firstn].
  constructor; [by apply IH|].
  destruct Hx as [| y l' Hxy]; [rewrite take_nil; constructor|].
  destruct n; constructor. exact Hxy.
Qed.

Section Further.
Context {W : Type} `{!dynamodb.API W} `{!Environ} `{!JSONCodec}.

Local Abbreviation Request := events.APIGatewayProxyRequest.

(** X4. A list request whose scan succeeds with well-formed items and
    whose page parameter parses to zero or to a negative number (down to
    the point where the offset would overflow) gets no response: the run
    panics on the slice bounds, after the scan. *)
Theorem X4_pages_at_or_below_zero_panic (req : Request) (st : St W)
    (out : dynamodb.ScanOutput) (w' : W) (p : Z) :
  let params := {| dynamodb.scan_TableName := Getenv "TABLE_NAME" |} in
  dynamodb.Scan params (world st) = (Ok out, w') ->
  forallb well_formed_item (dynamodb.Items out) = true ->
  strconv.Atoi (pageParam req) = Some p ->
  p <= 0 -> MinInt64 <= 3 * (p - 1) ->
  findAllMovies req st
  = (Panic slice_bounds_out_of_range, sent st (dynamodb.CallScan params) w').
Proof.
  intros params Hscan Hwf Hp Hneg Hmin.
  rewrite (findAllMovies_scanned req st out w' Hscan Hwf), Hp.
  by rewrite paginate_nonpositive.
Qed.

(** X5. One scanned item without a string [ID] or [Name] breaks the whole
    list: the run panics on the nil attribute, whatever the page parameter
    is, valid or not. *)
Theorem X5_one_malformed_item_breaks_the_list (req : Request) (st : St W)
    (out : dynamodb.ScanOutput) (w' : W) :
  let params := {| dynamodb.scan_TableName := Getenv "TABLE_NAME" |} in
  dynamodb.Scan params (world st) = (Ok out, w') ->
  forallb well_formed_item (dynamodb.Items out) = false ->
  findAllMovies req st
  = (Panic nil_pointer_dereference, sent st (dynamodb.CallScan params) w').
Proof.
  intros params Hscan Hwf. unfold findAllMovies, bind, call, lift. fold params.
  rewrite Hscan. cbv beta iota zeta.
  by rewrite (range_Items_malformed _ [] Hwf).
Qed.

(** X6. A lookup that finds an item without a string [ID] or [Name] gets
    no response either, from the router's [findOneMovie] and from the
    single-operation [findOne] alike: both panic on the nil attribute. *)
Theorem X6_a_malformed_item_breaks_the_lookup (req : Request) (st : St W)
    (out : dynamodb.GetItemOutput) (w' : W) :
  let params := findOneParams (go_index (events.PathParameters req) "id") in
  dynamodb.GetItem params (world st) = (Ok out, w') ->
  size (dynamodb.Item_ out) <> 0%nat ->
  well_formed_item (dynamodb.Item_ out) = false ->
  findOneMovie req st
  = (Panic nil_pointer_dereference, sent st (dynamodb.CallGetItem params) w')
  /\ FindOne.findOne req st
     = (Panic nil_pointer_dereference, sent st (dynamodb.CallGetItem params) w').
Proof.
  intros params Hget Hsize Hwf.
  unfold findOneMovie, FindOne.findOne, bind, call, lift. fold params.
  rewrite Hget. cbv beta iota zeta.
  destruct (Nat.eqb_spec (size (dynamodb.Item_ out)) 0) as [E | _]; [contradiction|].
  destruct (movie_of_item_malformed _ Hwf) as [-> | (id & -> & ->)]; by split.
Qed.

(** X7. Whatever the table answers, and whether the run ends with a
    response or a panic, the router sends at most one request to the
    table, the one the method asks for: a scan for a list, a lookup by
    the [id] for a get-one, a put, update or delete of the decoded movie
    for a write; a write whose body does not decode and an unsupported
    method send nothing. *)
Theorem X7_requests_sent_to_the_table (req : Request) (st : St W) :
  calls (snd (handleRequest req st)) = calls st ++ requests_of req
  /\ (length (requests_of req) <= 1)%nat.
Proof.
  split.
  - unfold handleRequest, requests_of, http.MethodGet, http.MethodPost,
      http.MethodPut, http.MethodDelete.
    destruct (String.eqb (events.HTTPMethod req) "GET").
    + destruct (String.eqb (go_index (events.PathParameters req) "id") "").
      * unfold findAllMovies, bind, call, lift, ret.
        destruct (dynamodb.Scan _ (world st)) as [[out | msg] w']; [| reflexivity].
        cbv beta iota zeta.
        destruct (range_Items (dynamodb.Items out) []) as [movies | e]; [| reflexivity].
        cbv beta iota zeta.
        destruct (strconv.Atoi (pageParam req)) as [p |]; [| reflexivity].
        destruct (paginateMovies _ p 3) as [[paged total] | e]; [| reflexivity].
        cbn [fst snd]. destruct (p >? total); reflexivity.
      * unfold findOneMovie, bind, call, lift, ret.
        destruct (dynamodb.GetItem _ (world st)) as [[out | msg] w']; [| reflexivity].
        cbv beta iota zeta.
        destruct (size (dynamodb.Item_ out) =? 0)%nat; [reflexivity|].
        destruct (dynamodb.deref_S (dynamodb.Item_ out) "ID"); [| reflexivity].
        cbv beta iota zeta.
        destruct (dynamodb.deref_S (dynamodb.Item_ out) "Name"); reflexivity.
    + unfold insertMovie, updateMovie, deleteMovie, bind, call, ret.
      destruct (Unmarshal (events.Body req)) as [movie | msg].
      * destruct (String.eqb (events.HTTPMethod req) "POST").
        { destruct (dynamodb.PutItem _ (world st)) as [[u | msg] w']; reflexivity. }
        destruct (String.eqb (events.HTTPMethod req) "PUT").
        { destruct (dynamodb.UpdateItem _ (world st)) as [[u | msg] w']; reflexivity. }
        destruct (String.eqb (events.HTTPMethod req) "DELETE").
        { destruct (dynamodb.DeleteItem _ (world st)) as [[u | msg] w']; reflexivity. }
        cbn [snd]. by rewrite app_nil_r.
      * destruct (String.eqb (events.HTTPMethod req) "POST"); [cbn [snd]; by rewrite app_nil_r|].
        destruct (String.eqb (events.HTTPMethod req) "PUT"); [cbn [snd]; by rewrite app_nil_r|].
        destruct (String.eqb (events.HTTPMethod req) "DELETE"); cbn [snd]; by rewrite app_nil_r.
  - unfold requests_of.
    repeat match goal with
           | |- context [if ?b then _ else _] => destruct b
           | |- context [match ?r with Ok _ => _ | Err _ => _ end] => destruct r
           end; cbn; lia.
Qed.

(** X8. Each single-operation write lambda does to the table what the
    router's operation does, and answers with the same status code, for
    every request and whatever the table answers: the two differ in the
    headers and the body only. *)
Theorem X8_write_lambdas_agree_with_the_router (req : Request) (st : St W) :
  (snd (Insert.insert req st) = snd (insertMovie req st)
   /\ status_of (Insert.insert req st) = status_of (insertMovie req st))
  /\ (snd (Update.update req st) = snd (updateMovie req st)
      /\ status_of (Update.update req st) = status_of (updateMovie req st))
  /\ (snd (Delete.delete req st) = snd (deleteMovie req st)
      /\ status_of (Delete.delete req st) = status_of (deleteMovie req st)).
Proof.
  unfold Insert.insert, insertMovie, Update.update, updateMovie,
    Delete.delete, deleteMovie, status_of, bind, call, ret.
  destruct (Unmarshal (events.Body req)) as [movie | msg]; [| by repeat split].
  split; [| split].
  - destruct (dynamodb.PutItem _ (world st)) as [[u | msg] w']; by split.
  - destruct (dynamodb.UpdateItem _ (world st)) as [[u | msg] w']; by split.
  - destruct (dynamodb.DeleteItem _ (world st)) as [[u | msg] w']; by split.
Qed.

(** X9. The single-operation [findOne] sends the same lookup as the
    router's [findOneMovie] for every request, and when the lookup finds a
    well-formed item the two runs are equal: same status 200, same header,
    same JSON of the movie. *)
Theorem X9_findOne_agrees_on_a_found_item (req : Request) (st : St W) :
  calls (snd (FindOne.findOne req st)) = calls (snd (findOneMovie req st))
  /\ (forall out w',
        dynamodb.GetItem (findOneParams (go_index (events.PathParameters req) "id"))
          (world st) = (Ok out, w') ->
        well_formed_item (dynamodb.Item_ out) = true ->
        FindOne.findOne req st = findOneMovie req st).
Proof.
  split.
  - unfold FindOne.findOne, findOneMovie, bind, call, lift, ret.
    destruct (dynamodb.GetItem _ (world st)) as [[out | msg] w']; [| reflexivity].
    cbv beta iota zeta.
    destruct (size (dynamodb.Item_ out) =? 0)%nat;
      destruct (dynamodb.deref_S (dynamodb.Item_ out) "ID"); try reflexivity;
      cbv beta iota zeta;
      destruct (dynamodb.deref_S (dynamodb.Item_ out) "Name"); reflexivity.
  - intros out w' Hget Hwf.
    destruct (well_formed_item_inv _ Hwf) as (id & name & _ & _ & Hm & _).
    rewrite (findOne_found req st out w' _ Hget Hm).
    by rewrite (findOneMovie_found req st out w' _ Hget Hm).
Qed.

(** X10. An update or a delete whose body the decoder rejects is answered
    with status 400 and sends nothing to the table: by the router with the
    error envelope "Invalid payload", by the single-operation lambdas with
    the plain text "Invalid payload: " followed by the decoder's error. *)
Theorem X10_update_and_delete_reject_a_bad_body (req : Request) (st : St W)
    (msg : string) :
  Unmarshal (events.Body req) = Err msg ->
  updateMovie req st = (Ret (error_response 400 "Invalid payload"), st)
  /\ deleteMovie req st = (Ret (error_response 400 "Invalid payload"), st)
  /\ Update.update req st = (Ret (bare_response 400 ("Invalid payload: " +:+ msg)), st)
  /\ Delete.delete req st = (Ret (bare_response 400 ("Invalid payload: " +:+ msg)), st).
Proof.
  intros Hbody. unfold updateMovie, deleteMovie, Update.update, Delete.delete.
  rewrite Hbody. by repeat split.
Qed.

(** X11. A write of the router whose body decodes is decided by the answer
    of the table alone: status 200 with the success envelope when the
    table accepts the put, update or delete, status 500 with the fixed
    error envelope when it fails; there is no check that the movie exists
    or does not exist. *)
Theorem X11_a_write_follows_the_answer_of_the_table (req : Request) (st : St W)
    (movie : Movie) :
  Unmarshal (events.Body req) = Ok movie ->
  (forall r w', dynamodb.PutItem (insertParams movie) (world st) = (r, w') ->
     insertMovie req st
     = (Ret match r with
            | Ok _ => success_response "Movie inserted successfully"
            | Err _ => error_response 500 "Error inserting movie into DynamoDB"
            end,
        sent st (dynamodb.CallPutItem (insertParams movie)) w'))
  /\ (forall r w', dynamodb.UpdateItem (updateParams movie) (world st) = (r, w') ->
        updateMovie req st
        = (Ret match r with
               | Ok _ => success_response "Movie updated successfully"
               | Err _ => error_response 500 "Error updating movie from DynamoDB"
               end,
           sent st (dynamodb.CallUpdateItem (updateParams movie)) w'))
  /\ (forall r w', dynamodb.DeleteItem (deleteParams movie) (world st) = (r, w') ->
        deleteMovie req st
        = (Ret match r with
               | Ok _ => success_response "Movie deleted successfully"
               | Err _ => error_response 500 "Error deleting movie into DynamoDB"
               end,
           sent st (dynamodb.CallDeleteItem (deleteParams movie)) w')).
Proof.
  intros Hbody. split; [| split]; intros r w' Hstore.
  - by apply insertMovie_stored.
  - by apply updateMovie_stored.
  - by apply deleteMovie_stored.
Qed.

Lemma put_Item_well_formed (movie : Movie) :
  movie_of_item (dynamodb.put_Item (insertParams movie))
  = Ret {| ID := ID movie; Name := Name movie |}.
Proof.
  unfold movie_of_item, dynamodb.deref_S, insertParams. cbn [dynamodb.put_Item].
  rewrite lookup_insert_eq. cbn [dynamodb.S obind].
  rewrite lookup_insert_ne by discriminate. rewrite lookup_singleton_eq.
  reflexivity.
Qed.

(** X12. What the create operation writes, the reads read back: the item
    [insertMovie] puts for a movie carries its id and its name, so a
    lookup that is answered with that item returns status 200 with the
    JSON of the same movie, and a scan answered with such items lists the
    same movies. *)
Theorem X12_a_created_movie_is_read_back (req : Request) (st : St W)
    (movie : Movie) (w' : W) :
  let params := findOneParams (go_index (events.PathParameters req) "id") in
  dynamodb.GetItem params (world st)
  = (Ok {| dynamodb.Item_ := dynamodb.put_Item (insertParams movie) |}, w') ->
  findOneMovie req st
  = (Ret (data_response (json.object_of_Movie movie)),
     sent st (dynamodb.CallGetItem params) w')
  /\ (forall movies : list Movie,
        range_Items (map (fun m => dynamodb.put_Item (insertParams m)) movies) []
        = Ret movies).
Proof.
  intros params Hget. split.
  - rewrite (findOneMovie_found req st _ w' _ Hget (put_Item_well_formed movie)).
    by destruct movie.
  - intros movies. rewrite range_Items_well_formed.
    + f_equal. induction movies as [| m movies IH]; [reflexivity|].
      cbn [map movies_of_items]. rewrite put_Item_well_formed.
      cbn [app] in *. rewrite IH. by destruct m.
    + induction movies as [| m movies IH]; [reflexivity|].
      cbn [map forallb]. unfold well_formed_item at 1.
      by rewrite put_Item_well_formed.
Qed.

(** X13. The collection the list operation paginates holds the scanned
    movies, each as often as it was scanned, in ascending order of the
    ids; so does every page served from it. *)
Theorem X13_the_list_is_sorted_by_id (items : list dynamodb.Item) (p : Z) :
  Permutation (sorted_collection items) (movies_of_items items)
  /\ Sorted (fun a b => String.ltb (ID b) (ID a) = false) (sorted_collection items)
  /\ Sorted (fun a b => String.ltb (ID b) (ID a) = false)
       (window (sorted_collection items) ((p - 1) * 3) (p * 3)).
Proof.
  split; [apply sorted_collection_Permutation|].
  split; [apply sorted_collection_Sorted|].
  pose proof (sorted_collection_Sorted items) as Hs.
  unfold window. rewrite window_from_take_drop.
  by apply Sorted_take, Sorted_drop.
Qed.

(** X14. For every codec, the body of an error and the body of a success
    differ, whatever their messages are: a caller can tell the two apart
    by the body alone. *)
Theorem X14_error_and_success_bodies_differ (errMessage successMessage : string) :
  jsonErrorResponse errMessage <> jsonSuccessResponse successMessage.
Proof.
  unfold jsonErrorResponse, jsonSuccessResponse, json.Marshal_FeedbackResponse.
  cbn [Success]. intros Heq. vm_compute in Heq. discriminate.
Qed.

Ltac status_case :=
  unfold error_status;
  first [ left; reflexivity
        | right; left; reflexivity
        | right; right; left; reflexivity
        | right; right; right; reflexivity ].

Ltac returned H :=
  injection H as <- <- <-; split; [reflexivity|];
  first [ left; apply error_response_shaped; status_case
        | right; apply success_response_shaped
        | right; apply movie_response_shaped ].

(** X15. Whatever the table answers: a run of the router that ends with a
    response ends with a structured one and a nil error. The runs that do
    not are panics; the router never returns a response without the JSON
    header or with a body of another shape. *)
Theorem X15_whatever_is_returned_is_structured (req : Request) (st st' : St W)
    (resp : events.APIGatewayProxyResponse) (e : error) :
  handleRequest req st = (Ret (resp, e), st') ->
  e = nil /\ structured req resp.
Proof.
  unfold handleRequest, structured, http.MethodGet, http.MethodPost,
    http.MethodPut, http.MethodDelete.
  destruct (String.eqb (events.HTTPMethod req) "GET").
  - destruct (String.eqb (go_index (events.PathParameters req) "id") "").
    + unfold findAllMovies, bind, call, lift, ret.
      destruct (dynamodb.Scan _ (world st)) as [[out | msg] w'];
        [| intros Hrun; returned Hrun].
      cbv beta iota zeta.
      destruct (range_Items (dynamodb.Items out) []) as [movies | err];
        [| discriminate].
      cbv beta iota zeta.
      destruct (strconv.Atoi (pageParam req)) as [p |]; [| intros Hrun; returned Hrun].
      destruct (paginateMovies _ p 3) as [[paged total] | err]; [| discriminate].
      cbn [fst snd]. destruct (p >? total); [intros Hrun; returned Hrun|].
      destruct (json.Marshal_PaginatedMovie _) as [data | err] eqn:Hdata;
        [| intros Hrun; returned Hrun].
      intros Hrun. injection Hrun as <- <- <-. split; [reflexivity|]. right.
      eapply (page_response_shaped _ data). exact Hdata.
    + unfold findOneMovie, bind, call, lift, ret.
      destruct (dynamodb.GetItem _ (world st)) as [[out | msg] w'];
        [| intros Hrun; returned Hrun].
      cbv beta iota zeta.
      destruct (size (dynamodb.Item_ out) =? 0)%nat; [intros Hrun; returned Hrun|].
      destruct (dynamodb.deref_S (dynamodb.Item_ out) "ID") as [id | err];
        [| discriminate].
      cbv beta iota zeta.
      destruct (dynamodb.deref_S (dynamodb.Item_ out) "Name") as [name | err];
        [| discriminate].
      cbv beta iota zeta. intros Hrun. injection Hrun as <- <- <-.
      split; [reflexivity|]. right.
      apply (movie_response_shaped {| ID := id; Name := name |}).
  - unfold insertMovie, updateMovie, deleteMovie, bind, call, ret.
    destruct (String.eqb (events.HTTPMethod req) "POST").
    { destruct (Unmarshal (events.Body req)) as [movie | msg]; [| intros Hrun; returned Hrun].
      destruct (dynamodb.PutItem _ (world st)) as [[u | msg] w']; intros Hrun; returned Hrun. }
    destruct (String.eqb (events.HTTPMethod req) "PUT").
    { destruct (Unmarshal (events.Body req)) as [movie | msg]; [| intros Hrun; returned Hrun].
      destruct (dynamodb.UpdateItem _ (world st)) as [[u | msg] w']; intros Hrun; returned Hrun. }
    destruct (String.eqb (events.HTTPMethod req) "DELETE").
    { destruct (Unmarshal (events.Body req)) as [movie | msg]; [| intros Hrun; returned Hrun].
      destruct (dynamodb.DeleteItem _ (world st)) as [[u | msg] w']; intros Hrun; returned Hrun. }
    intros Hrun; returned Hrun.
Qed.

End Further.

(* ================================================================== *)
(** * The further properties on the in-memory table                    *)
(* ================================================================== *)

Lemma X4_witness :
  (@dynamodb.Scan InMemory.Table InMemory.api
     {| dynamodb.scan_TableName := @Getenv InMemory.env "TABLE_NAME" |} InMemory.four
   = (Ok {| dynamodb.Items := InMemory.rows InMemory.four |}, InMemory.four))
  /\ forallb well_formed_item (InMemory.rows InMemory.four) = true
  /\ strconv.Atoi (pageParam (InMemory.get ∅ {[ "page" := "0" ]})) = Some 0
  /\ 0 <= 0
  /\ MinInt64 <= 3 * (0 - 1)
  /\ InMemory.listing (InMemory.get ∅ {[ "page" := "0" ]}) (InMemory.start InMemory.four)
     = (Panic slice_bounds_out_of_range,
        sent (InMemory.start InMemory.four)
          (dynamodb.CallScan {| dynamodb.scan_TableName := "movies" |}) InMemory.four).
Proof.
  assert (Hscan : @dynamodb.Scan InMemory.Table InMemory.api
            {| dynamodb.scan_TableName := @Getenv InMemory.env "TABLE_NAME" |} InMemory.four
          = (Ok {| dynamodb.Items := InMemory.rows InMemory.four |}, InMemory.four))
    by reflexivity.
  assert (Hwf : forallb well_formed_item (InMemory.rows InMemory.four) = true)
    by (vm_compute; reflexivity).
  assert (Hp : strconv.Atoi (pageParam (InMemory.get ∅ {[ "page" := "0" ]})) = Some 0)
    by (vm_compute; reflexivity).
  assert (Hneg : 0 <= 0) by lia.
  assert (Hmin : MinInt64 <= 3 * (0 - 1)) by (unfold MinInt64; lia).
  repeat (split; [assumption|]).
  exact (@X4_pages_at_or_below_zero_panic InMemory.Table InMemory.api InMemory.env
           InMemory.codec (InMemory.get ∅ {[ "page" := "0" ]})
           (InMemory.start InMemory.four) _ _ 0 Hscan Hwf Hp Hneg Hmin).
Defined.

Lemma X5_witness :
  (@dynamodb.Scan InMemory.Table InMemory.api
     {| dynamodb.scan_TableName := @Getenv InMemory.env "TABLE_NAME" |} Scenarios.tainted
   = (Ok {| dynamodb.Items := InMemory.rows Scenarios.tainted |}, Scenarios.tainted))
  /\ forallb well_formed_item (InMemory.rows Scenarios.tainted) = false
  /\ InMemory.listing (InMemory.get ∅ ∅) (InMemory.start Scenarios.tainted)
     = (Panic nil_pointer_dereference,
        sent (InMemory.start Scenarios.tainted)
          (dynamodb.CallScan {| dynamodb.scan_TableName := "movies" |}) Scenarios.tainted).
Proof.
  assert (Hscan : @dynamodb.Scan InMemory.Table InMemory.api
            {| dynamodb.scan_TableName := @Getenv InMemory.env "TABLE_NAME" |}
            Scenarios.tainted
          = (Ok {| dynamodb.Items := InMemory.rows Scenarios.tainted |}, Scenarios.tainted))
    by reflexivity.
  assert (Hwf : forallb well_formed_item (InMemory.rows Scenarios.tainted) = false)
    by (vm_compute; reflexivity).
  split; [exact Hscan|]. split; [exact Hwf|].
  exact (@X5_one_malformed_item_breaks_the_list InMemory.Table InMemory.api InMemory.env
           InMemory.codec (InMemory.get ∅ ∅) (InMemory.start Scenarios.tainted) _ _
           Hscan Hwf).
Defined.

Lemma X6_witness :
  (@dynamodb.GetItem InMemory.Table InMemory.api
     (@findOneParams InMemory.env "m9") Scenarios.nameless
   = (Ok {| dynamodb.Item_ := {[ "ID" := {| dynamodb.S := Some "m9" |} ]} |},
      Scenarios.nameless))
  /\ size ({[ "ID" := {| dynamodb.S := Some "m9" |} ]} : dynamodb.Item) <> 0%nat
  /\ well_formed_item {[ "ID" := {| dynamodb.S := Some "m9" |} ]} = false
  /\ fst (InMemory.get_one (InMemory.get {[ "id" := "m9" ]} ∅)
            (InMemory.start Scenarios.nameless))
     = Panic nil_pointer_dereference
  /\ fst (InMemory.lambda_findOne (InMemory.get {[ "id" := "m9" ]} ∅)
            (InMemory.start Scenarios.nameless))
     = Panic nil_pointer_dereference.
Proof.
  assert (Hget : @dynamodb.GetItem InMemory.Table InMemory.api
                   (@findOneParams InMemory.env "m9") Scenarios.nameless
                 = (Ok {| dynamodb.Item_ := {[ "ID" := {| dynamodb.S := Some "m9" |} ]} |},
                    Scenarios.nameless))
    by (vm_compute; reflexivity).
  assert (Hsize : size ({[ "ID" := {| dynamodb.S := Some "m9" |} ]} : dynamodb.Item)
                  <> 0%nat) by (vm_compute; discriminate).
  assert (Hwf : well_formed_item {[ "ID" := {| dynamodb.S := Some "m9" |} ]} = false)
    by (vm_compute; reflexivity).
  split; [exact Hget|]. split; [exact Hsize|]. split; [exact Hwf|].
  pose proof (@X6_a_malformed_item_breaks_the_lookup InMemory.Table InMemory.api
                InMemory.env InMemory.codec (InMemory.get {[ "id" := "m9" ]} ∅)
                (InMemory.start Scenarios.nameless)
                {| dynamodb.Item_ := {[ "ID" := {| dynamodb.S := Some "m9" |} ]} |}
                Scenarios.nameless) as Hboth.
  cbv zeta in Hboth. specialize (Hboth Hget Hsize Hwf).
  destruct Hboth as [Hrouter Hlambda].
  unfold InMemory.get_one, InMemory.lambda_findOne. rewrite Hrouter, Hlambda.
  split; reflexivity.
Defined.

Lemma X9_witness :
  (@dynamodb.GetItem InMemory.Table InMemory.api
     (@findOneParams InMemory.env "m1") InMemory.four
   = (Ok {| dynamodb.Item_ := InMemory.item_of "m1" "Alpha" |}, InMemory.four))
  /\ well_formed_item (InMemory.item_of "m1" "Alpha") = true
  /\ InMemory.lambda_findOne (InMemory.get {[ "id" := "m1" ]} ∅)
       (InMemory.start InMemory.four)
     = InMemory.get_one (InMemory.get {[ "id" := "m1" ]} ∅) (InMemory.start InMemory.four).
Proof.
  assert (Hget : @dynamodb.GetItem InMemory.Table InMemory.api
                   (@findOneParams InMemory.env "m1") InMemory.four
                 = (Ok {| dynamodb.Item_ := InMemory.item_of "m1" "Alpha" |},
                    InMemory.four))
    by (vm_compute; reflexivity).
  assert (Hwf : well_formed_item (InMemory.item_of "m1" "Alpha") = true)
    by (vm_compute; reflexivity).
  split; [exact Hget|]. split; [exact Hwf|].
  exact (proj2 (@X9_findOne_agrees_on_a_found_item InMemory.Table InMemory.api
                  InMemory.env InMemory.codec (InMemory.get {[ "id" := "m1" ]} ∅)
                  (InMemory.start InMemory.four)) _ _ Hget Hwf).
Defined.

Lemma X10_witness :
  @Unmarshal InMemory.codec (events.Body (InMemory.send "PUT" "not-json"))
  = Err InMemory.syntax_error
  /\ InMemory.modify (InMemory.send "PUT" "not-json") (InMemory.start InMemory.four)
     = (Ret (@error_response InMemory.codec 400 "Invalid payload"),
        InMemory.start InMemory.four)
  /\ @deleteMovie InMemory.Table InMemory.api InMemory.env InMemory.codec
       (InMemory.send "PUT" "not-json") (InMemory.start InMemory.four)
     = (Ret (@error_response InMemory.codec 400 "Invalid payload"),
        InMemory.start InMemory.four)
  /\ InMemory.lambda_update (InMemory.send "PUT" "not-json") (InMemory.start InMemory.four)
     = (Ret (bare_response 400 ("Invalid payload: " +:+ InMemory.syntax_error)),
        InMemory.start InMemory.four)
  /\ InMemory.lambda_delete (InMemory.send "PUT" "not-json") (InMemory.start InMemory.four)
     = (Ret (bare_response 400 ("Invalid payload: " +:+ InMemory.syntax_error)),
        InMemory.start InMemory.four).
Proof.
  assert (Hbody : @Unmarshal InMemory.codec (events.Body (InMemory.send "PUT" "not-json"))
                  = Err InMemory.syntax_error) by reflexivity.
  split; [exact Hbody|].
  exact (@X10_update_and_delete_reject_a_bad_body InMemory.Table InMemory.api
           InMemory.env InMemory.codec (InMemory.send "PUT" "not-json")
           (InMemory.start InMemory.four) InMemory.syntax_error Hbody).
Defined.

Lemma X11_witness :
  @Unmarshal InMemory.codec (events.Body (InMemory.send "POST" InMemory.alpha_body))
  = Ok {| ID := "m1"; Name := "Alpha" |}
  /\ (@dynamodb.PutItem InMemory.Table InMemory.api
        (@insertParams InMemory.env {| ID := "m1"; Name := "Alpha" |}) InMemory.down
      = (Err "ResourceNotFoundException: Requested resource not found", InMemory.down))
  /\ InMemory.create (InMemory.send "POST" InMemory.alpha_body)
       (InMemory.start InMemory.down)
     = (Ret (@error_response InMemory.codec 500 "Error inserting movie into DynamoDB"),
        sent (InMemory.start InMemory.down)
          (dynamodb.CallPutItem
             (@insertParams InMemory.env {| ID := "m1"; Name := "Alpha" |}))
          InMemory.down).
Proof.
  assert (Hbody : @Unmarshal InMemory.codec
                    (events.Body (InMemory.send "POST" InMemory.alpha_body))
                  = Ok {| ID := "m1"; Name := "Alpha" |}) by reflexivity.
  assert (Hput : @dynamodb.PutItem InMemory.Table InMemory.api
                   (@insertParams InMemory.env {| ID := "m1"; Name := "Alpha" |})
                   InMemory.down
                 = (Err "ResourceNotFoundException: Requested resource not found",
                    InMemory.down)) by reflexivity.
  split; [exact Hbody|]. split; [exact Hput|].
  exact (proj1 (@X11_a_write_follows_the_answer_of_the_table InMemory.Table InMemory.api
                  InMemory.env InMemory.codec (InMemory.send "POST" InMemory.alpha_body)
                  (InMemory.start InMemory.down) _ Hbody) _ _ Hput).
Defined.

Lemma X12_witness :
  (@dynamodb.GetItem InMemory.Table InMemory.api
     (@findOneParams InMemory.env "m1") (world Scenarios.after_create)
   = (Ok {| dynamodb.Item_ :=
              dynamodb.put_Item
                (@insertParams InMemory.env {| ID := "m1"; Name := "Alpha" |}) |},
      world Scenarios.after_create))
  /\ body_of (InMemory.get_one (InMemory.get {[ "id" := "m1" ]} ∅) Scenarios.after_create)
     = Some InMemory.alpha_body.
Proof.
  assert (Hget : @dynamodb.GetItem InMemory.Table InMemory.api
                   (@findOneParams InMemory.env "m1") (world Scenarios.after_create)
                 = (Ok {| dynamodb.Item_ :=
                            dynamodb.put_Item
                              (@insertParams InMemory.env
                                 {| ID := "m1"; Name := "Alpha" |}) |},
                    world Scenarios.after_create))
    by (vm_compute; reflexivity).
  split; [exact Hget|].
  pose proof (@X12_a_created_movie_is_read_back InMemory.Table InMemory.api InMemory.env
                InMemory.codec (InMemory.get {[ "id" := "m1" ]} ∅) Scenarios.after_create
                {| ID := "m1"; Name := "Alpha" |} (world Scenarios.after_create)) as Hback.
  cbv zeta in Hback. specialize (Hback Hget). destruct Hback as [Hread _].
  unfold InMemory.get_one. rewrite Hread. reflexivity.
Defined.

Lemma X15_witness :
  exists resp e st',
    InMemory.router (InMemory.get ∅ {[ "page" := "2" ]}) (InMemory.start InMemory.four)
    = (Ret (resp, e), st')
    /\ e = nil
    /\ @structured InMemory.codec (InMemory.get ∅ {[ "page" := "2" ]}) resp.
Proof.
  destruct (InMemory.router (InMemory.get ∅ {[ "page" := "2" ]})
              (InMemory.start InMemory.four)) as [[[resp e] | err] st'] eqn:Hrun.
  - exists resp, e, st'. split; [reflexivity|].
    exact (@X15_whatever_is_returned_is_structured InMemory.Table InMemory.api
             InMemory.env InMemory.codec _ _ _ _ _ Hrun).
  - vm_compute in Hrun. discriminate.
Defined.
